(** * Lab_Agent.py: a price- and stock-triggered reordering agent

    A shallow embedding of [src/Lab_Agent.py] and the properties of its
    simulation loop.

    Numbers.  Python [int]s are [Z].  Python [float]s are embedded twice.

    - Module [B64] embeds the functions that compute on floats
      ([select_from_dist], the two monitors, [order], [select_action]) on
      IEEE 754 binary64, the primitive floats of Rocq: every operation rounds
      as the interpreter's does, [int()] raises [OverflowError] and
      [ValueError] on an infinite and on a NaN argument, and the literals
      [0.1] and [0.2] are the binary64 numbers closest to them.  What a call
      of one of these functions returns, bit for bit, is stated on [B64].

    - The top-level definitions embed the whole program on exact rationals
      [Q]: every arithmetic operation of the source is kept, in the order the
      source performs it, without rounding.  The properties of whole runs
      (lengths and bounds of the histories, the bookkeeping between them) are
      stated on this embedding.

    Randomness.  The module-global generator is made explicit: every call of
    [do_action] consumes one [Draw], the value returned by [random.random()]
    inside [select_from_dist] and the value returned by [random.gauss].

    Exceptions.  Fallible code returns a [result]; the exceptions of the
    program are the explicit [RuntimeError] of [select_from_dist], the
    [ZeroDivisionError] of the division in [OrderingController.order] and the
    [OverflowError] and [ValueError] of its [int()].

    Console.  Of the [print] calls, the decision log that closes
    [select_action] is kept, as one structured record per decision. *)

From Stdlib Require Import ZArith QArith Qround Qpower List Lia Lqa Bool Floats.
Import ListNotations.

Set Warnings "-inexact-float".

Set Implicit Arguments.

(** ** Exceptions *)

Inductive exn : Type :=
| RuntimeError
| ZeroDivisionError
| OverflowError
| ValueError.

Inductive result (A : Type) : Type :=
| Ok (a : A)
| Raise (e : exn).

Arguments Ok {A} a.
Arguments Raise {A} e.

Definition bind {A B : Type} (m : result A) (k : A -> result B) : result B :=
  match m with
  | Ok a => k a
  | Raise e => Raise e
  end.

Notation "x <- m ;; k" := (bind m (fun x => k))
  (at level 61, m at next level, right associativity).

(** ** Python arithmetic on the numeric model *)

Module Py.

(** [x < y] on floats. *)
Definition ltb (x y : Q) : bool :=
  (Qnum x * QDen y <? Qnum y * QDen x)%Z.

(** [max(a, b)]: the first argument, unless the second is strictly larger. *)
Definition max (a b : Q) : Q := if ltb a b then b else a.

(** [int(x)]: truncation toward zero. *)
Definition int (x : Q) : Z := Z.quot (Qnum x) (QDen x).

(** [math.floor(x)], the rounding the specification speaks of. *)
Definition floor (x : Q) : Z := Qfloor x.

(** [x / y]: raises [ZeroDivisionError] on a zero divisor. *)
Definition truediv (x y : Q) : result Q :=
  if Qeq_bool y 0 then Raise ZeroDivisionError else Ok (x / y)%Q.

(** [sum(xs)]: starts from [0] and adds from the left. *)
Definition sum (xs : list Q) : Q := fold_left Qplus xs 0%Q.

(** [range(n)]: empty when [n <= 0]. *)
Definition range (n : Z) : list nat := seq 0 (Z.to_nat n).

End Py.

(** ** Utility function for random sampling from a distribution

    A [dict] is iterated in insertion order; the distribution is the list of
    its items in that order.  [ranreal] is the value of [random.random()]. *)

Fixpoint select_from_dist_loop {A : Type} (items : list (A * Q)) (ranreal : Q)
  : result A :=
  match items with
  | [] => Raise RuntimeError
  | (item, prob) :: rest =>
      if Py.ltb ranreal prob then Ok item
      else select_from_dist_loop rest (ranreal - prob)%Q
  end.

Definition select_from_dist {A : Type} (item_prob_dist : list (A * Q))
  (ranreal : Q) : result A :=
  select_from_dist_loop item_prob_dist ranreal.

(** ** Percepts, actions and the random draws of one step *)

(** The percept dictionary, with its keys ["price"] and ["stock"]. *)
Module Percept.
Record t : Type := { price : Q; stock : Z }.
End Percept.

(** The action dictionary; [buy] is [None] when the key is absent. *)
Record Action : Type := { buy : option Z }.

(** [action.get("buy", default)] *)
Definition Action_get_buy (action : Action) (default : Z) : Z :=
  match buy action with
  | Some n => n
  | None => default
  end.

Record Draw : Type := {
  ranreal : Q;   (* random.random() *)
  gauss : Q      (* random.gauss(0, noise_sd) *)
}.

(** ** Environment Class *)

Module SmartphoneEnvironment.

Definition price_delta : list Z :=
  [10; -80; 20; -60; 5; 50; -100; 30; -20; 0]%Z.

Definition noise_sd : Q := 20.

Definition daily_sales_dist : list (Z * Q) :=
  [(3%Z, 0.2%Q); (5%Z, 0.3%Q); (7%Z, 0.3%Q); (10%Z, 0.2%Q)].

Record t : Type := {
  time : Z;
  stock : Z;
  price : Q;
  stock_history : list Z;
  price_history : list Q
}.

(** [__init__] *)
Definition init : t :=
  {| time := 0;
     stock := 50;
     price := 600;
     stock_history := [50%Z];
     price_history := [600%Q] |}.

Definition initial_percept (self : t) : Percept.t :=
  {| Percept.price := price self; Percept.stock := stock self |}.

Definition do_action (self : t) (action : Action) (d : Draw)
  : result (t * Percept.t) :=
  daily_sales <- select_from_dist daily_sales_dist (ranreal d) ;;
  let bought := Action_get_buy action 0 in
  let stock' := Z.max 0 (stock self + bought - daily_sales) in
  let time' := (time self + 1)%Z in
  let price1 :=
    (price self
     + (inject_Z (nth (Z.to_nat (time' mod Z.of_nat (length price_delta)))
                      price_delta 0%Z)
        + gauss d))%Q in
  let price' := Py.max 100 price1 in
  Ok ({| time := time';
         stock := stock';
         price := price';
         stock_history := stock_history self ++ [stock'];
         price_history := price_history self ++ [price'] |},
      {| Percept.price := price'; Percept.stock := stock' |}).

End SmartphoneEnvironment.

(** ** Controller Classes

    The price controller keeps a reference to the agent and reads
    [self.agent.average_price] when it is called; the ordering controller
    reads the same field through [self.price_controller.agent].  Both
    functions take that current value as [average_price]. *)

Module PriceMonitoringController.

Record t : Type := { discount_threshold : Q }.

Definition default_discount_threshold : Q := 0.2.

(** [__init__(self, agent, discount_threshold=0.2)]; the reference to the
    agent is the [average_price] argument of [monitor]. *)
Definition init (discount_threshold : Q) : t :=
  {| discount_threshold := discount_threshold |}.

Definition monitor (self : t) (average_price : Q) (percept : Percept.t) : bool :=
  let current_price := Percept.price percept in
  let discount_price_threshold :=
    ((1 - discount_threshold self) * average_price)%Q in
  if Py.ltb current_price discount_price_threshold then true else false.

End PriceMonitoringController.

Module InventoryMonitoringController.

Record t : Type := { threshold : Z }.

Definition default_threshold : Z := 10.

(** [__init__(self, threshold=10)] *)
Definition init (threshold : Z) : t := {| threshold := threshold |}.

Definition monitor (self : t) (percept : Percept.t) : bool :=
  (Percept.stock percept <? threshold self)%Z.

End InventoryMonitoringController.

Module OrderingController.

Definition order (average_price : Q) (percept : Percept.t)
  (price_discount low_stock : bool) : result Z :=
  let current_price := Percept.price percept in
  if price_discount && negb low_stock then
    discount_ratio <-
      Py.truediv (average_price - current_price)%Q average_price ;;
    let tobuy := Py.int (15 * (1 + discount_ratio))%Q in
    Ok tobuy
  else if low_stock then
    Ok 10%Z
  else
    Ok 0%Z.

End OrderingController.

(** ** Agent Class *)

(** The decision log printed at the end of [select_action]. *)
Record DecisionLog : Type := {
  log_time : Z;
  log_price : Q;
  log_stock : Z;
  log_price_discount : bool;
  log_low_stock : bool;
  log_average : Q;
  log_tobuy : Z
}.

Module SmartphoneAgent.

Record t : Type := {
  average_price : Q;
  buy_history : list Z;
  total_spent : Q;
  price_controller : PriceMonitoringController.t;
  inventory_controller : InventoryMonitoringController.t
}.

(** [__init__] *)
Definition init : t :=
  {| average_price := 600;
     buy_history := [];
     total_spent := 0;
     price_controller :=
       PriceMonitoringController.init
         PriceMonitoringController.default_discount_threshold;
     inventory_controller :=
       InventoryMonitoringController.init
         InventoryMonitoringController.default_threshold |}.

Definition select_action (self : t) (percept : Percept.t)
  : result (t * Action * DecisionLog) :=
  let current_price := Percept.price percept in
  let average_price' :=
    (average_price self + (current_price - average_price self) * 0.1)%Q in
  let price_discount :=
    PriceMonitoringController.monitor
      (price_controller self) average_price' percept in
  let low_stock :=
    InventoryMonitoringController.monitor
      (inventory_controller self) percept in
  tobuy <-
    OrderingController.order average_price' percept price_discount low_stock ;;
  let total_spent' := (total_spent self + inject_Z tobuy * current_price)%Q in
  let buy_history' := buy_history self ++ [tobuy] in
  Ok ({| average_price := average_price';
         buy_history := buy_history';
         total_spent := total_spent';
         price_controller := price_controller self;
         inventory_controller := inventory_controller self |},
      {| buy := Some tobuy |},
      {| log_time := Z.of_nat (length buy_history') - 1;
         log_price := current_price;
         log_stock := Percept.stock percept;
         log_price_discount := price_discount;
         log_low_stock := low_stock;
         log_average := average_price';
         log_tobuy := tobuy |}).

End SmartphoneAgent.

(** ** Simulation Class *)

Module Simulation.

(** [agent], [environment] and [percept] are the attributes of the class;
    [console] is what the decisions of this simulation have printed so far. *)
Record t : Type := {
  agent : SmartphoneAgent.t;
  environment : SmartphoneEnvironment.t;
  percept : Percept.t;
  console : list DecisionLog
}.

(** [__init__(self, agent, environment)] *)
Definition init (agent : SmartphoneAgent.t)
  (environment : SmartphoneEnvironment.t) : t :=
  {| agent := agent;
     environment := environment;
     percept := SmartphoneEnvironment.initial_percept environment;
     console := [] |}.

(** The body of the loop of [run]. *)
Definition step (self : t) (d : Draw) : result t :=
  r <- SmartphoneAgent.select_action (agent self) (percept self) ;;
  let '(agent', action, log) := r in
  e <- SmartphoneEnvironment.do_action (environment self) action d ;;
  let '(environment', percept') := e in
  Ok {| agent := agent';
        environment := environment';
        percept := percept';
        console := console self ++ [log] |}.

(** [for step in range(steps)]: every iteration takes the next draw of the
    generator [rng]. *)
Fixpoint loop (steps : list nat) (rng : nat -> Draw) (self : t) : result t :=
  match steps with
  | [] => Ok self
  | _ :: rest =>
      self' <- step self (rng O) ;;
      loop rest (fun i => rng (S i)) self'
  end.

Definition run (self : t) (steps : Z) (rng : nat -> Draw) : result t :=
  loop (Py.range steps) rng self.

End Simulation.

(** The main program up to the plot: a fresh environment and agent, [run]. *)
Definition main_run (steps : Z) (rng : nat -> Draw) : result Simulation.t :=
  Simulation.run
    (Simulation.init SmartphoneAgent.init SmartphoneEnvironment.init)
    steps rng.

(** ** The functions that compute on floats, on binary64

    The same functions as above, on the primitive binary64 floats:
    [x + y], [x - y], [x * y] and [x / y] round to nearest, ties to even, and
    [x <? y] is false as soon as an argument is a NaN.  A percept's price, the
    agent's average and its expenditure are floats (the [int]s 600 and 100
    that the program stores in them are the floats of the same value); the
    stock and the quantities are [int]s. *)

Module B64.

(** The number that a float stands for. *)
Inductive value : Type :=
| Finite (q : Q)
| Infinite (negative : bool)
| NaN.

Definition value_of (x : float) : value :=
  match Prim2SF x with
  | S754_zero _ => Finite 0
  | S754_infinity negative => Infinite negative
  | S754_nan => NaN
  | S754_finite negative m e =>
      Finite (inject_Z (if negative then Z.neg m else Z.pos m) * Qpower 2 e)
  end.

(** [int(x)]: truncation toward zero of a finite [x]. *)
Definition int (x : float) : result Z :=
  match value_of x with
  | Finite q => Ok (Py.int q)
  | Infinite _ => Raise OverflowError
  | NaN => Raise ValueError
  end.

(** [math.floor(x)], the rounding the specification speaks of. *)
Definition floor (x : float) : result Z :=
  match value_of x with
  | Finite q => Ok (Py.floor q)
  | Infinite _ => Raise OverflowError
  | NaN => Raise ValueError
  end.

(** [x / y]: raises [ZeroDivisionError] on a zero divisor, of either sign. *)
Definition truediv (x y : float) : result float :=
  if (y =? 0)%float then Raise ZeroDivisionError else Ok (x / y)%float.

(** The conversion of an [int] operand of a mixed operation: the nearest
    float, or [OverflowError] when it is out of range. *)
Definition of_int (n : Z) : result float :=
  let x := SF2Prim (binary_normalize prec emax n 0 false) in
  match Prim2SF x with
  | S754_infinity _ => Raise OverflowError
  | _ => Ok x
  end.

(** [select_from_dist]: [ranreal -= prob] rounds at every entry. *)
Fixpoint select_from_dist_loop {A : Type} (items : list (A * float))
  (ranreal : float) : result A :=
  match items with
  | [] => Raise RuntimeError
  | (item, prob) :: rest =>
      if (ranreal <? prob)%float then Ok item
      else select_from_dist_loop rest (ranreal - prob)%float
  end.

Definition select_from_dist {A : Type} (item_prob_dist : list (A * float))
  (ranreal : float) : result A :=
  select_from_dist_loop item_prob_dist ranreal.

Module Percept.
Record t : Type := { price : float; stock : Z }.
End Percept.

Module PriceMonitoringController.

Record t : Type := { discount_threshold : float }.

Definition default_discount_threshold : float := 0.2.

Definition init (discount_threshold : float) : t :=
  {| discount_threshold := discount_threshold |}.

Definition monitor (self : t) (average_price : float) (percept : Percept.t)
  : bool :=
  let current_price := Percept.price percept in
  let discount_price_threshold :=
    ((1 - discount_threshold self) * average_price)%float in
  if (current_price <? discount_price_threshold)%float then true else false.

End PriceMonitoringController.

Module InventoryMonitoringController.

Record t : Type := { threshold : Z }.

Definition default_threshold : Z := 10.

Definition init (threshold : Z) : t := {| threshold := threshold |}.

Definition monitor (self : t) (percept : Percept.t) : bool :=
  (Percept.stock percept <? threshold self)%Z.

End InventoryMonitoringController.

Module OrderingController.

Definition order (average_price : float) (percept : Percept.t)
  (price_discount low_stock : bool) : result Z :=
  let current_price := Percept.price percept in
  if price_discount && negb low_stock then
    discount_ratio <-
      truediv (average_price - current_price)%float average_price ;;
    tobuy <- int (15 * (1 + discount_ratio))%float ;;
    Ok tobuy
  else if low_stock then
    Ok 10%Z
  else
    Ok 0%Z.

End OrderingController.

(** The decision log printed at the end of [select_action]. *)
Record DecisionLog : Type := {
  log_time : Z;
  log_price : float;
  log_stock : Z;
  log_price_discount : bool;
  log_low_stock : bool;
  log_average : float;
  log_tobuy : Z
}.

Module SmartphoneAgent.

Record t : Type := {
  average_price : float;
  buy_history : list Z;
  total_spent : float;
  price_controller : PriceMonitoringController.t;
  inventory_controller : InventoryMonitoringController.t
}.

(** [__init__] *)
Definition init : t :=
  {| average_price := 600;
     buy_history := [];
     total_spent := 0;
     price_controller :=
       PriceMonitoringController.init
         PriceMonitoringController.default_discount_threshold;
     inventory_controller :=
       InventoryMonitoringController.init
         InventoryMonitoringController.default_threshold |}.

Definition select_action (self : t) (percept : Percept.t)
  : result (t * Action * DecisionLog) :=
  let current_price := Percept.price percept in
  let average_price' :=
    (average_price self + (current_price - average_price self) * 0.1)%float in
  let price_discount :=
    PriceMonitoringController.monitor
      (price_controller self) average_price' percept in
  let low_stock :=
    InventoryMonitoringController.monitor
      (inventory_controller self) percept in
  tobuy <-
    OrderingController.order average_price' percept price_discount low_stock ;;
  units <- of_int tobuy ;;
  let total_spent' := (total_spent self + units * current_price)%float in
  let buy_history' := buy_history self ++ [tobuy] in
  Ok ({| average_price := average_price';
         buy_history := buy_history';
         total_spent := total_spent';
         price_controller := price_controller self;
         inventory_controller := inventory_controller self |},
      {| buy := Some tobuy |},
      {| log_time := Z.of_nat (length buy_history') - 1;
         log_price := current_price;
         log_stock := Percept.stock percept;
         log_price_discount := price_discount;
         log_low_stock := low_stock;
         log_average := average_price';
         log_tobuy := tobuy |}).

End SmartphoneAgent.

(** The exact value of a finite float, 0 for the others. *)
Definition to_Q (x : float) : Q :=
  match value_of x with
  | Finite q => q
  | _ => 0
  end.

End B64.

(** ** Vocabulary of the properties *)

(** The cumulative probability of the [k]-th outcome of a distribution: the
    sum of the probabilities of the entries up to and including it. *)
Definition cumulative {A : Type} (item_prob_dist : list (A * Q)) (k : nat) : Q :=
  Py.sum (map snd (firstn (S k) item_prob_dist)).

(** The sum of the probabilities of the first [k] entries of a distribution. *)
Definition prefix_sum {A : Type} (item_prob_dist : list (A * Q)) (k : nat) : Q :=
  Py.sum (map snd (firstn k item_prob_dist)).

(** The sum of all the probabilities of a distribution. *)
Definition total_probability {A : Type} (item_prob_dist : list (A * Q)) : Q :=
  Py.sum (map snd item_prob_dist).

(** [random.random()] returns a value of the interval [0, 1). *)
Definition valid_rng (rng : nat -> Draw) : Prop :=
  forall i, (0 <= ranreal (rng i) < 1)%Q.

(** The generator after [k] steps of the simulation. *)
Definition advance (k : nat) (rng : nat -> Draw) : nat -> Draw :=
  fun i => rng (k + i)%nat.

(** [sum(buy_history[i] * price_history[i] for i in range(steps))] *)
Definition spent_from_histories (buy_history : list Z) (price_history : list Q)
  (steps : Z) : Q :=
  Py.sum (map (fun i => (inject_Z (nth i buy_history 0%Z)
                         * nth i price_history 0)%Q)
              (Py.range steps)).

(** What every iteration of the loop of [run] maintains. *)
Record sim_inv (s : Simulation.t) : Prop := {
  inv_price_length :
    length (SmartphoneEnvironment.price_history (Simulation.environment s))
    = S (length (SmartphoneAgent.buy_history (Simulation.agent s)));
  inv_stock_length :
    length (SmartphoneEnvironment.stock_history (Simulation.environment s))
    = S (length (SmartphoneAgent.buy_history (Simulation.agent s)));
  inv_percept :
    nth (length (SmartphoneAgent.buy_history (Simulation.agent s)))
        (SmartphoneEnvironment.price_history (Simulation.environment s)) 0%Q
    = Percept.price (Simulation.percept s);
  inv_spent :
    SmartphoneAgent.total_spent (Simulation.agent s)
    = spent_from_histories
        (SmartphoneAgent.buy_history (Simulation.agent s))
        (SmartphoneEnvironment.price_history (Simulation.environment s))
        (Z.of_nat (length (SmartphoneAgent.buy_history (Simulation.agent s))));
  inv_stock_floor :
    Forall (fun x => (0 <= x)%Z)
      (SmartphoneEnvironment.stock_history (Simulation.environment s));
  inv_price_floor :
    Forall (fun x => (100 <= x)%Q)
      (SmartphoneEnvironment.price_history (Simulation.environment s));
  inv_percept_floor : (100 <= Percept.price (Simulation.percept s))%Q;
  inv_average : (100 <= SmartphoneAgent.average_price (Simulation.agent s))%Q
}.

(** One iteration appends exactly one entry to each of the three histories. *)
Definition appends_one (s s' : Simulation.t) : Prop :=
  exists tobuy new_price new_stock,
    SmartphoneAgent.buy_history (Simulation.agent s')
    = SmartphoneAgent.buy_history (Simulation.agent s) ++ [tobuy]
    /\ SmartphoneEnvironment.price_history (Simulation.environment s')
       = SmartphoneEnvironment.price_history (Simulation.environment s)
         ++ [new_price]
    /\ SmartphoneEnvironment.stock_history (Simulation.environment s')
       = SmartphoneEnvironment.stock_history (Simulation.environment s)
         ++ [new_stock].

(** A generator used to run the program on concrete inputs: [random()] is
    always a half and the noise is null. *)
Definition steady_rng : nat -> Draw :=
  fun _ => {| ranreal := 0.5; gauss := 0 |}.

(** A generator of a collapsing market: the demand is 10 at every step and
    the noise drags the price to its floor. *)
Definition crash_rng : nat -> Draw :=
  fun _ => {| ranreal := 0.9; gauss := -1000 |}.

(** The number of units bought over a history of decisions. *)
Definition units_bought (buy_history : list Z) : Z :=
  fold_right Z.add 0%Z buy_history.

(** The demand that [do_action] draws for the value [u] of
    [random.random()], read off the cumulative sums 0.2, 0.5, 0.8 and 1 of
    its distribution. *)
Definition demand_bracket (u : Q) (daily_sales : Z) : Prop :=
  ((u < 0.2)%Q /\ daily_sales = 3%Z)
  \/ ((0.2 <= u < 0.5)%Q /\ daily_sales = 5%Z)
  \/ ((0.5 <= u < 0.8)%Q /\ daily_sales = 7%Z)
  \/ ((0.8 <= u < 1)%Q /\ daily_sales = 10%Z).

(** What the loop of [run] maintains, besides [sim_inv], on the simulation
    that the main program builds: the clock and the current state of the
    environment against the histories and the percept, the thresholds of the
    agent, the range of its orders, its expenditure and its average against
    the prices, and the decision log against the histories. *)
Record run_inv (s : Simulation.t) : Prop := {
  rinv_time :
    SmartphoneEnvironment.time (Simulation.environment s)
    = Z.of_nat (length (SmartphoneAgent.buy_history (Simulation.agent s)));
  rinv_price :
    Percept.price (Simulation.percept s)
    = SmartphoneEnvironment.price (Simulation.environment s);
  rinv_stock :
    Percept.stock (Simulation.percept s)
    = SmartphoneEnvironment.stock (Simulation.environment s);
  rinv_last_stock :
    nth (length (SmartphoneAgent.buy_history (Simulation.agent s)))
        (SmartphoneEnvironment.stock_history (Simulation.environment s)) 0%Z
    = Percept.stock (Simulation.percept s);
  rinv_price_controller :
    SmartphoneAgent.price_controller (Simulation.agent s)
    = PriceMonitoringController.init 0.2;
  rinv_inventory_controller :
    SmartphoneAgent.inventory_controller (Simulation.agent s)
    = InventoryMonitoringController.init 10;
  rinv_buys :
    Forall (fun b => (0 <= b <= 29)%Z)
      (SmartphoneAgent.buy_history (Simulation.agent s));
  rinv_spent :
    (100 * inject_Z (units_bought
                       (SmartphoneAgent.buy_history (Simulation.agent s)))
     <= SmartphoneAgent.total_spent (Simulation.agent s))%Q;
  rinv_average :
    forall lo hi,
      Forall (fun p => (lo <= p <= hi)%Q)
        (SmartphoneEnvironment.price_history (Simulation.environment s)) ->
      (lo <= SmartphoneAgent.average_price (Simulation.agent s) <= hi)%Q;
  rinv_log_tobuy :
    map log_tobuy (Simulation.console s)
    = SmartphoneAgent.buy_history (Simulation.agent s);
  rinv_log_time :
    map log_time (Simulation.console s)
    = map Z.of_nat
        (seq 0 (length (SmartphoneAgent.buy_history (Simulation.agent s))));
  rinv_log_price :
    map log_price (Simulation.console s)
    = firstn (length (SmartphoneAgent.buy_history (Simulation.agent s)))
        (SmartphoneEnvironment.price_history (Simulation.environment s));
  rinv_log_stock :
    map log_stock (Simulation.console s)
    = firstn (length (SmartphoneAgent.buy_history (Simulation.agent s)))
        (SmartphoneEnvironment.stock_history (Simulation.environment s))
}.

(** * Properties *)

(** ** The numeric helpers *)

Lemma Py_ltb_lt (x y : Q) : Py.ltb x y = true <-> (x < y)%Q.
Proof. unfold Py.ltb, Qlt. apply Z.ltb_lt. Qed.

Lemma Py_ltb_ge (x y : Q) : Py.ltb x y = false <-> (y <= x)%Q.
Proof. unfold Py.ltb, Qle. apply Z.ltb_ge. Qed.

Lemma Py_max_lower (a b : Q) : (a <= Py.max a b)%Q.
Proof.
  unfold Py.max. destruct (Py.ltb a b) eqn:E.
  - apply Py_ltb_lt in E. lra.
  - lra.
Qed.

Lemma Py_int_floor (x : Q) : (0 <= x)%Q -> Py.int x = Py.floor x.
Proof.
  destruct x as [n d]. unfold Py.int, Py.floor, Qle. simpl. intros H.
  apply Z.quot_div_nonneg; lia.
Qed.

Lemma truediv_ok (x y : Q) : ~ (y == 0)%Q -> Py.truediv x y = Ok (x / y)%Q.
Proof.
  intros H. unfold Py.truediv. destruct (Qeq_bool y 0) eqn:E; [|reflexivity].
  apply Qeq_bool_eq in E. contradiction.
Qed.

(** ** The controllers *)

(** C4: with both flags set the ordering controller returns the fixed restock
    quantity 10, whatever the percept and the reference average price. *)
Theorem order_low_stock_wins (average_price : Q) (percept : Percept.t) :
  OrderingController.order average_price percept true true = Ok 10%Z
  /\ OrderingController.order 600
       {| Percept.price := 500; Percept.stock := 5 |} true true = Ok 10%Z.
Proof. split; reflexivity. Qed.

(** C8: the inventory monitor is the strict comparison of the percept's stock
    with the threshold: false at stock 10 and true at stock 9 for threshold
    10. *)
Theorem inventory_monitor_strict (self : InventoryMonitoringController.t)
  (percept : Percept.t) :
  (InventoryMonitoringController.monitor self percept = true
   <-> (Percept.stock percept < InventoryMonitoringController.threshold self)%Z)
  /\ InventoryMonitoringController.monitor
       (InventoryMonitoringController.init 10)
       {| Percept.price := Percept.price percept; Percept.stock := 10 |} = false
  /\ InventoryMonitoringController.monitor
       (InventoryMonitoringController.init 10)
       {| Percept.price := Percept.price percept; Percept.stock := 9 |} = true.
Proof.
  split; [|split; reflexivity].
  unfold InventoryMonitoringController.monitor. apply Z.ltb_lt.
Qed.

(** ** Sampling from a distribution *)

Lemma fold_left_Qplus_acc (xs : list Q) (a : Q) :
  (fold_left Qplus xs a == a + fold_left Qplus xs 0)%Q.
Proof.
  revert a. induction xs as [|x xs IH]; intros a; simpl.
  - lra.
  - rewrite (IH (a + x)%Q), (IH (0 + x)%Q). lra.
Qed.

Lemma Py_sum_cons (x : Q) (xs : list Q) :
  (Py.sum (x :: xs) == x + Py.sum xs)%Q.
Proof.
  unfold Py.sum. simpl. rewrite fold_left_Qplus_acc. lra.
Qed.

Lemma cumulative_head {A : Type} (item : A) (prob : Q) (rest : list (A * Q)) :
  (cumulative ((item, prob) :: rest) 0 == prob)%Q.
Proof.
  unfold cumulative. simpl firstn. simpl map.
  rewrite Py_sum_cons. unfold Py.sum. simpl. lra.
Qed.

Lemma cumulative_tail {A : Type} (item : A) (prob : Q) (rest : list (A * Q))
  (k : nat) :
  (cumulative ((item, prob) :: rest) (S k) == prob + cumulative rest k)%Q.
Proof.
  unfold cumulative.
  change (firstn (S (S k)) ((item, prob) :: rest))
    with ((item, prob) :: firstn (S k) rest).
  simpl map. apply Py_sum_cons.
Qed.

Lemma cumulative_last {A : Type} (item_prob_dist : list (A * Q)) (k : nat) :
  (length item_prob_dist <= S k)%nat ->
  cumulative item_prob_dist k = total_probability item_prob_dist.
Proof.
  intros H. unfold cumulative, total_probability.
  rewrite firstn_all2 by exact H. reflexivity.
Qed.

Lemma select_from_dist_returns {A : Type} (items : list (A * Q)) (r : Q) (x : A) :
  select_from_dist_loop items r = Ok x
  <-> exists k prob,
        nth_error items k = Some (x, prob)
        /\ (r < cumulative items k)%Q
        /\ forall j, (j < k)%nat -> ~ (r < cumulative items j)%Q.
Proof.
  revert r. induction items as [|[item prob] rest IH]; intros r; simpl.
  - split; [discriminate|]. intros (k & q & H & _). destruct k; discriminate.
  - destruct (Py.ltb r prob) eqn:E.
    + apply Py_ltb_lt in E. split.
      * intros H. injection H as <-. exists 0%nat, prob.
        split; [reflexivity|]. split; [rewrite cumulative_head; exact E|].
        intros j Hj. lia.
      * intros (k & q & Hk & Hlt & Hmin). destruct k as [|k].
        -- simpl in Hk. congruence.
        -- exfalso. apply (Hmin 0%nat); [lia|].
           rewrite cumulative_head. exact E.
    + apply Py_ltb_ge in E. rewrite IH. split.
      * intros (k & q & Hk & Hlt & Hmin). exists (S k), q.
        split; [exact Hk|]. split.
        -- rewrite cumulative_tail. lra.
        -- intros [|j] Hj.
           ++ rewrite cumulative_head. lra.
           ++ rewrite cumulative_tail. intros Hc.
              apply (Hmin j); [lia|lra].
      * intros (k & q & Hk & Hlt & Hmin). destruct k as [|k].
        -- rewrite cumulative_head in Hlt. lra.
        -- exists k, q. split; [exact Hk|]. split.
           ++ rewrite cumulative_tail in Hlt. lra.
           ++ intros j Hj Hc. apply (Hmin (S j)); [lia|].
              rewrite cumulative_tail. lra.
Qed.

Lemma select_from_dist_raises {A : Type} (items : list (A * Q)) (r : Q) (e : exn) :
  select_from_dist_loop items r = Raise e
  <-> e = RuntimeError
      /\ forall k, (k < length items)%nat -> ~ (r < cumulative items k)%Q.
Proof.
  revert r. induction items as [|[item prob] rest IH]; intros r; simpl.
  - split.
    + intros H. injection H as <-. split; [reflexivity|]. intros k Hk. lia.
    + intros [-> _]. reflexivity.
  - destruct (Py.ltb r prob) eqn:E.
    + apply Py_ltb_lt in E. split; [discriminate|].
      intros [_ H]. exfalso. apply (H 0%nat); [lia|].
      rewrite cumulative_head. exact E.
    + apply Py_ltb_ge in E. rewrite IH. split.
      * intros [-> H]. split; [reflexivity|]. intros [|k] Hk.
        -- rewrite cumulative_head. lra.
        -- rewrite cumulative_tail. intros Hc. apply (H k); [lia|lra].
      * intros [-> H]. split; [reflexivity|]. intros k Hk Hc.
        apply (H (S k)); [lia|]. rewrite cumulative_tail. lra.
Qed.

Lemma prefix_sum_cumulative {A : Type} (items : list (A * Q)) (k : nat) :
  prefix_sum items (S k) = cumulative items k.
Proof. reflexivity. Qed.

Lemma prefix_sum_all {A : Type} (items : list (A * Q)) (k : nat) :
  (length items <= k)%nat -> prefix_sum items k = total_probability items.
Proof.
  intros H. unfold prefix_sum, total_probability.
  rewrite firstn_all2 by exact H. reflexivity.
Qed.

(** Without rounding, for a drawn value [u] of [0, 1), the loop of
    [select_from_dist] returns the first outcome, in iteration order, whose
    cumulative probability strictly exceeds [u]; it raises (a [RuntimeError])
    exactly when no prefix sum exceeds [u], which forces the probabilities to
    sum to less than 1; when they sum to at least 1 it returns.  The
    probabilities need not even be non-negative. *)
Theorem select_from_dist_first_exceeding {A : Type}
  (item_prob_dist : list (A * Q)) (u : Q) :
  (0 <= u < 1)%Q ->
  (forall x,
      select_from_dist item_prob_dist u = Ok x
      <-> exists k prob,
            nth_error item_prob_dist k = Some (x, prob)
            /\ (u < cumulative item_prob_dist k)%Q
            /\ forall j, (j < k)%nat -> ~ (u < cumulative item_prob_dist j)%Q)
  /\ (forall e,
        select_from_dist item_prob_dist u = Raise e
        <-> e = RuntimeError
            /\ forall k, ~ (u < prefix_sum item_prob_dist k)%Q)
  /\ (forall e,
        select_from_dist item_prob_dist u = Raise e ->
        (total_probability item_prob_dist < 1)%Q)
  /\ ((1 <= total_probability item_prob_dist)%Q ->
      exists x, select_from_dist item_prob_dist u = Ok x).
Proof.
  intros [Hu0 Hu1]. unfold select_from_dist.
  assert (Hraise : forall e,
             select_from_dist_loop item_prob_dist u = Raise e
             <-> e = RuntimeError
                 /\ forall k, ~ (u < prefix_sum item_prob_dist k)%Q).
  { intros e. rewrite select_from_dist_raises. split.
    - intros [-> H]. split; [reflexivity|]. intros [|k].
      + unfold prefix_sum, Py.sum. simpl. lra.
      + rewrite prefix_sum_cumulative.
        destruct (Nat.lt_ge_cases k (length item_prob_dist)) as [Hk|Hk].
        * apply H, Hk.
        * destruct item_prob_dist as [|ip rest].
          -- unfold cumulative, Py.sum. simpl. lra.
          -- rewrite cumulative_last by lia.
             rewrite <- (cumulative_last (ip :: rest) (k := length rest))
               by (simpl; lia).
             apply H. simpl. lia.
    - intros [-> H]. split; [reflexivity|]. intros k _.
      rewrite <- prefix_sum_cumulative. apply H. }
  assert (Htotal : forall e,
             select_from_dist_loop item_prob_dist u = Raise e ->
             (total_probability item_prob_dist < 1)%Q).
  { intros e He. apply Hraise in He. destruct He as [_ H].
    specialize (H (length item_prob_dist)).
    rewrite prefix_sum_all in H by lia. lra. }
  split; [intros x; apply select_from_dist_returns|].
  split; [exact Hraise|]. split; [exact Htotal|].
  intros Hsum. destruct (select_from_dist_loop item_prob_dist u) as [x|e] eqn:E.
  - exists x. reflexivity.
  - specialize (Htotal e eq_refl). lra.
Qed.

Lemma select_from_dist_first_exceeding_witness :
  (0 <= 0.5 < 1)%Q
  /\ (1 <= total_probability SmartphoneEnvironment.daily_sales_dist)%Q
  /\ exists x,
       select_from_dist SmartphoneEnvironment.daily_sales_dist 0.5 = Ok x.
Proof.
  assert (Hu : (0 <= 0.5 < 1)%Q) by lra.
  assert (Hsum : (1 <= total_probability
                          SmartphoneEnvironment.daily_sales_dist)%Q)
    by (vm_compute; discriminate).
  split; [exact Hu|]. split; [exact Hsum|].
  apply (select_from_dist_first_exceeding
           SmartphoneEnvironment.daily_sales_dist Hu).
  exact Hsum.
Defined.

(** ** The environment *)

Lemma daily_sales_drawn (u : Q) :
  match select_from_dist SmartphoneEnvironment.daily_sales_dist u with
  | Ok _ => True
  | Raise e => e = RuntimeError /\ ~ (u < 1)%Q
  end.
Proof.
  unfold select_from_dist, SmartphoneEnvironment.daily_sales_dist.
  simpl.
  repeat match goal with
         | |- context [Py.ltb ?a ?b] =>
             let E := fresh "E" in
             destruct (Py.ltb a b) eqn:E; [exact I | apply Py_ltb_ge in E]
         end.
  split; [reflexivity | lra].
Qed.

Lemma do_action_cases (self : SmartphoneEnvironment.t) (action : Action)
  (d : Draw) :
  match SmartphoneEnvironment.do_action self action d with
  | Ok (self', percept') =>
      SmartphoneEnvironment.stock_history self'
      = SmartphoneEnvironment.stock_history self ++ [Percept.stock percept']
      /\ SmartphoneEnvironment.price_history self'
         = SmartphoneEnvironment.price_history self ++ [Percept.price percept']
      /\ (0 <= Percept.stock percept')%Z
      /\ (100 <= Percept.price percept')%Q
  | Raise e => e = RuntimeError /\ ~ (ranreal d < 1)%Q
  end.
Proof.
  unfold SmartphoneEnvironment.do_action.
  pose proof (daily_sales_drawn (ranreal d)) as H.
  destruct (select_from_dist SmartphoneEnvironment.daily_sales_dist (ranreal d))
    as [daily_sales|e]; simpl.
  - repeat split.
    + apply Z.le_max_l.
    + apply Py_max_lower.
  - exact H.
Qed.

(** ** The agent *)

Lemma select_action_cases (self : SmartphoneAgent.t) (percept : Percept.t) :
  let average_price' :=
    (SmartphoneAgent.average_price self
     + (Percept.price percept - SmartphoneAgent.average_price self) * 0.1)%Q in
  match SmartphoneAgent.select_action self percept with
  | Ok (self', action, log) =>
      exists tobuy,
        buy action = Some tobuy
        /\ SmartphoneAgent.buy_history self'
           = SmartphoneAgent.buy_history self ++ [tobuy]
        /\ SmartphoneAgent.total_spent self'
           = (SmartphoneAgent.total_spent self
              + inject_Z tobuy * Percept.price percept)%Q
        /\ SmartphoneAgent.average_price self' = average_price'
  | Raise e => e = ZeroDivisionError /\ (average_price' == 0)%Q
  end.
Proof.
  intros average_price'. unfold SmartphoneAgent.select_action.
  fold average_price'. unfold OrderingController.order.
  destruct (PriceMonitoringController.monitor _ _ _ && negb _).
  - unfold Py.truediv. destruct (Qeq_bool average_price' 0) eqn:E; simpl.
    + split; [reflexivity|]. apply Qeq_bool_eq, E.
    + eexists. repeat split.
  - destruct (InventoryMonitoringController.monitor _ _); simpl;
      eexists; repeat split.
Qed.

Lemma smoothing_floor (average price : Q) :
  (100 <= average)%Q -> (100 <= price)%Q ->
  (100 <= average + (price - average) * 0.1)%Q.
Proof. intros Ha Hp. lra. Qed.

(** ** The bookkeeping of the expenditure *)

Lemma spent_from_histories_snoc (buys : list Z) (prices : list Q)
  (tobuy : Z) (new_price : Q) :
  (length buys < length prices)%nat ->
  spent_from_histories (buys ++ [tobuy]) (prices ++ [new_price])
    (Z.of_nat (length (buys ++ [tobuy])))
  = (spent_from_histories buys prices (Z.of_nat (length buys))
     + inject_Z tobuy * nth (length buys) prices 0)%Q.
Proof.
  intros Hlen. unfold spent_from_histories, Py.range, Py.sum.
  rewrite !Nat2Z.id, length_app. simpl length.
  rewrite Nat.add_1_r, seq_S, map_app, fold_left_app. simpl.
  rewrite nth_middle, (app_nth1 prices [new_price] 0%Q Hlen).
  f_equal. f_equal. apply map_ext_in. intros i Hi.
  apply in_seq in Hi.
  rewrite (app_nth1 buys [tobuy] 0%Z) by lia.
  rewrite (app_nth1 prices [new_price] 0%Q) by lia.
  reflexivity.
Qed.

(** ** One iteration of the loop *)

Lemma step_cases (s : Simulation.t) (d : Draw) :
  sim_inv s ->
  match Simulation.step s d with
  | Ok s' => sim_inv s' /\ appends_one s s'
  | Raise e => e = RuntimeError /\ ~ (ranreal d < 1)%Q
  end.
Proof.
  intros [Hpl Hsl Hper Hspent Hsf Hpf Hperf Havg].
  unfold Simulation.step.
  pose proof (select_action_cases (Simulation.agent s) (Simulation.percept s))
    as Hsel.
  pose proof (smoothing_floor Havg Hperf) as Hfloor.
  destruct (SmartphoneAgent.select_action _ _) as [[[agent' action] log]|e];
    simpl in Hsel |- *.
  2:{ destruct Hsel as [_ Hz]. exfalso. rewrite Hz in Hfloor. lra. }
  destruct Hsel as (tobuy & _ & Hbuy & Htotal & Haverage).
  pose proof (do_action_cases (Simulation.environment s) action d) as Hact.
  destruct (SmartphoneEnvironment.do_action _ _ _) as [[env' percept']|e];
    simpl; [|exact Hact].
  destruct Hact as (Hsh & Hph & Hstock & Hprice).
  split.
  - constructor; simpl.
    + rewrite Hph, Hbuy, !length_app. simpl. lia.
    + rewrite Hsh, Hbuy, !length_app. simpl. lia.
    + rewrite Hph, Hbuy, length_app. simpl.
      rewrite Nat.add_1_r, <- Hpl. apply nth_middle.
    + rewrite Htotal, Hbuy, Hph, spent_from_histories_snoc by lia.
      rewrite Hspent, Hper. reflexivity.
    + rewrite Hsh. apply Forall_app. split; [exact Hsf|].
      constructor; [exact Hstock|constructor].
    + rewrite Hph. apply Forall_app. split; [exact Hpf|].
      constructor; [exact Hprice|constructor].
    + exact Hprice.
    + rewrite Haverage. exact Hfloor.
  - exists tobuy, (Percept.price percept'), (Percept.stock percept').
    simpl. auto.
Qed.

Lemma initial_inv :
  sim_inv (Simulation.init SmartphoneAgent.init SmartphoneEnvironment.init).
Proof.
  constructor; simpl; try reflexivity.
  - constructor; [lia|constructor].
  - constructor; [lra|constructor].
  - lra.
  - lra.
Qed.

(** ** The loop *)

Lemma bind_Ok_r {A : Type} (m : result A) : bind m Ok = m.
Proof. destruct m; reflexivity. Qed.

Lemma loop_ext (l : list nat) (rng rng' : nat -> Draw) (s : Simulation.t) :
  (forall i, rng i = rng' i) ->
  Simulation.loop l rng s = Simulation.loop l rng' s.
Proof.
  revert rng rng' s. induction l as [|x l IH]; intros rng rng' s H; simpl.
  - reflexivity.
  - rewrite H. destruct (Simulation.step s (rng' 0%nat)); simpl.
    + apply IH. intros i. apply H.
    + reflexivity.
Qed.

Lemma loop_length (l l' : list nat) (rng : nat -> Draw) (s : Simulation.t) :
  length l = length l' ->
  Simulation.loop l rng s = Simulation.loop l' rng s.
Proof.
  revert l' rng s. induction l as [|x l IH]; intros [|x' l'] rng s H;
    simpl in *; try discriminate.
  - reflexivity.
  - destruct (Simulation.step s (rng 0%nat)); simpl.
    + apply IH. lia.
    + reflexivity.
Qed.

Lemma loop_app (l1 l2 : list nat) (rng : nat -> Draw) (s : Simulation.t) :
  Simulation.loop (l1 ++ l2) rng s
  = bind (Simulation.loop l1 rng s)
         (Simulation.loop l2 (advance (length l1) rng)).
Proof.
  revert rng s. induction l1 as [|x l1 IH]; intros rng s; simpl.
  - apply loop_ext. intros i. reflexivity.
  - destruct (Simulation.step s (rng 0%nat)); simpl.
    + rewrite IH. reflexivity.
    + reflexivity.
Qed.

Lemma loop_cases (l : list nat) (rng : nat -> Draw) (s : Simulation.t) :
  sim_inv s ->
  match Simulation.loop l rng s with
  | Ok s' =>
      sim_inv s'
      /\ length (SmartphoneAgent.buy_history (Simulation.agent s'))
         = (length (SmartphoneAgent.buy_history (Simulation.agent s))
            + length l)%nat
  | Raise e => e = RuntimeError /\ exists i, ~ (ranreal (rng i) < 1)%Q
  end.
Proof.
  revert rng s. induction l as [|x l IH]; intros rng s Hinv; simpl.
  - split; [exact Hinv|lia].
  - pose proof (step_cases (rng 0%nat) Hinv) as Hstep.
    destruct (Simulation.step s (rng 0%nat)) as [s1|e]; simpl.
    + destruct Hstep as [Hinv1 (b & p & st & Hb & _)].
      specialize (IH (fun i => rng (S i)) s1 Hinv1).
      destruct (Simulation.loop l _ s1) as [s'|e].
      * destruct IH as [Hinv' Hlen]. split; [exact Hinv'|].
        rewrite Hlen, Hb, length_app. simpl. lia.
      * destruct IH as [He [i Hi]]. split; [exact He|]. exists (S i). exact Hi.
    + destruct Hstep as [He Hu]. split; [exact He|]. exists 0%nat. exact Hu.
Qed.

Lemma run_split (s : Simulation.t) (k m : Z) (rng : nat -> Draw) :
  (0 <= k)%Z -> (0 <= m)%Z ->
  Simulation.run s (k + m) rng
  = bind (Simulation.run s k rng)
         (fun s' => Simulation.run s' m (advance (Z.to_nat k) rng)).
Proof.
  intros Hk Hm. unfold Simulation.run, Py.range.
  rewrite Z2Nat.inj_add by assumption.
  rewrite seq_app, loop_app, length_seq. simpl.
  destruct (Simulation.loop _ rng s); simpl; [|reflexivity].
  apply loop_length. rewrite !length_seq. reflexivity.
Qed.

Lemma run_one (s : Simulation.t) (rng : nat -> Draw) :
  Simulation.run s 1 rng = Simulation.step s (rng 0%nat).
Proof. unfold Simulation.run. simpl. apply bind_Ok_r. Qed.

Lemma main_run_cases (steps : Z) (rng : nat -> Draw) :
  match main_run steps rng with
  | Ok s =>
      sim_inv s
      /\ length (SmartphoneAgent.buy_history (Simulation.agent s))
         = Z.to_nat steps
  | Raise e => e = RuntimeError /\ ~ valid_rng rng
  end.
Proof.
  unfold main_run, Simulation.run.
  pose proof (loop_cases (Py.range steps) rng initial_inv) as H.
  destruct (Simulation.loop _ _ _) as [s|e].
  - destruct H as [Hinv Hlen]. split; [exact Hinv|].
    rewrite Hlen. unfold Py.range. rewrite length_seq. reflexivity.
  - destruct H as [He [i Hi]]. split; [exact He|].
    intros Hv. apply Hi, Hv.
Qed.

Lemma main_run_ok (steps : Z) (rng : nat -> Draw) :
  valid_rng rng ->
  exists s,
    main_run steps rng = Ok s
    /\ sim_inv s
    /\ length (SmartphoneAgent.buy_history (Simulation.agent s))
       = Z.to_nat steps.
Proof.
  intros Hv. pose proof (main_run_cases steps rng) as H.
  destruct (main_run steps rng) as [s|e].
  - exists s. split; [reflexivity|exact H].
  - destruct H as [_ H]. contradiction.
Qed.

Lemma main_run_prefix (steps k : Z) (rng : nat -> Draw) :
  (0 <= k <= steps)%Z ->
  valid_rng rng ->
  exists sk,
    main_run k rng = Ok sk
    /\ sim_inv sk
    /\ length (SmartphoneAgent.buy_history (Simulation.agent sk)) = Z.to_nat k
    /\ Simulation.run sk (steps - k) (advance (Z.to_nat k) rng)
       = main_run steps rng.
Proof.
  intros Hk Hv. destruct (main_run_ok k Hv) as (sk & Hrun & Hinv & Hlen).
  exists sk. split; [exact Hrun|]. split; [exact Hinv|]. split; [exact Hlen|].
  unfold main_run in *.
  transitivity
    (Simulation.run
       (Simulation.init SmartphoneAgent.init SmartphoneEnvironment.init)
       (k + (steps - k)) rng).
  - rewrite run_split by lia. rewrite Hrun. reflexivity.
  - f_equal. lia.
Qed.

Lemma main_run_succ (k : Z) (rng : nat -> Draw) :
  (0 <= k)%Z ->
  main_run (k + 1) rng
  = bind (main_run k rng) (fun sk => Simulation.step sk (rng (Z.to_nat k))).
Proof.
  intros Hk. unfold main_run. rewrite run_split by lia.
  destruct (Simulation.run _ k rng); simpl; [|reflexivity].
  rewrite run_one. unfold advance. rewrite Nat.add_0_r. reflexivity.
Qed.

Lemma loop_extends (l : list nat) (rng : nat -> Draw) (s s' : Simulation.t) :
  sim_inv s ->
  Simulation.loop l rng s = Ok s' ->
  exists buys prices,
    SmartphoneAgent.buy_history (Simulation.agent s')
    = SmartphoneAgent.buy_history (Simulation.agent s) ++ buys
    /\ SmartphoneEnvironment.price_history (Simulation.environment s')
       = SmartphoneEnvironment.price_history (Simulation.environment s)
         ++ prices.
Proof.
  revert rng s. induction l as [|x l IH]; intros rng s Hinv; simpl.
  - intros H. injection H as <-. exists [], []. rewrite !app_nil_r. auto.
  - pose proof (step_cases (rng 0%nat) Hinv) as Hstep.
    destruct (Simulation.step s (rng 0%nat)) as [s1|e]; simpl; [|discriminate].
    destruct Hstep as [Hinv1 (b & p & st & Hb & Hp & _)].
    intros H. destruct (IH _ _ Hinv1 H) as (buys & prices & Hb' & Hp').
    exists (b :: buys), (p :: prices).
    rewrite Hb', Hp', Hb, Hp, <- !app_assoc. auto.
Qed.

Lemma steady_rng_valid : valid_rng steady_rng.
Proof. intros i. simpl. lra. Qed.

(** ** The simulation *)

(** A run on concrete draws: 8 steps with [steady_rng].  The demand is 7 at
    every step, the stock falls to 8 at time 6, and the agent then restocks
    10 units at the price 435 it has just observed. *)
Example main_run_8 :
  exists s,
    main_run 8 steady_rng = Ok s
    /\ SmartphoneAgent.buy_history (Simulation.agent s)
       = [0; 0; 0; 0; 0; 0; 10; 0]%Z
    /\ SmartphoneEnvironment.stock_history (Simulation.environment s)
       = [50; 43; 36; 29; 22; 15; 8; 11; 4]%Z
    /\ map Qred (SmartphoneEnvironment.price_history (Simulation.environment s))
       = [600; 520; 540; 480; 485; 535; 435; 465; 445]%Q
    /\ Qred (SmartphoneAgent.total_spent (Simulation.agent s)) = 4350%Q.
Proof. eexists. split; [vm_compute; reflexivity|]. vm_compute. auto. Qed.

(** A run that reaches the price floor: 3 steps with [crash_rng].  The price
    is clamped to 100 at once; the average falls to 550, then to 505, and the
    agent orders int(15 * (1 + 450/550)) = 27, then int(15 * (1 + 405/505))
    = 27 units, each paid 100. *)
Example main_run_crash :
  exists s,
    main_run 3 crash_rng = Ok s
    /\ SmartphoneAgent.buy_history (Simulation.agent s) = [0; 27; 27]%Z
    /\ SmartphoneEnvironment.stock_history (Simulation.environment s)
       = [50; 40; 57; 74]%Z
    /\ SmartphoneEnvironment.price_history (Simulation.environment s)
       = [600; 100; 100; 100]%Q
    /\ Qred (SmartphoneAgent.average_price (Simulation.agent s)) = 505%Q
    /\ Qred (SmartphoneAgent.total_spent (Simulation.agent s)) = 5400%Q.
Proof. eexists. split; [vm_compute; reflexivity|]. vm_compute. auto. Qed.

Lemma step_spent (s s' : Simulation.t) (d : Draw) :
  Simulation.step s d = Ok s' ->
  exists tobuy,
    SmartphoneAgent.buy_history (Simulation.agent s')
    = SmartphoneAgent.buy_history (Simulation.agent s) ++ [tobuy]
    /\ SmartphoneAgent.total_spent (Simulation.agent s')
       = (SmartphoneAgent.total_spent (Simulation.agent s)
          + inject_Z tobuy * Percept.price (Simulation.percept s))%Q.
Proof.
  unfold Simulation.step.
  pose proof (select_action_cases (Simulation.agent s) (Simulation.percept s))
    as Hsel.
  destruct (SmartphoneAgent.select_action _ _) as [[[agent' action] log]|e];
    simpl in *; [|discriminate].
  destruct Hsel as (tobuy & _ & Hbuy & Htotal & _).
  destruct (SmartphoneEnvironment.do_action _ _ _) as [[env' percept']|e];
    simpl; [|discriminate].
  intros H. injection H as <-. simpl. exists tobuy. auto.
Qed.



(** C2: after [run(steps)], [steps >= 0], [buy_history] has [steps] entries
    and both environment histories have [steps + 1]; after every iteration of
    the loop the environment histories are one longer than [buy_history], and
    the iteration has appended exactly one entry to each of the three. *)
Theorem history_lengths (steps : Z) (rng : nat -> Draw) :
  (0 <= steps)%Z ->
  valid_rng rng ->
  (exists s,
      main_run steps rng = Ok s
      /\ Z.of_nat (length (SmartphoneAgent.buy_history (Simulation.agent s)))
         = steps
      /\ Z.of_nat (length (SmartphoneEnvironment.price_history
                             (Simulation.environment s)))
         = (steps + 1)%Z
      /\ Z.of_nat (length (SmartphoneEnvironment.stock_history
                             (Simulation.environment s)))
         = (steps + 1)%Z)
  /\ forall k, (0 <= k < steps)%Z ->
     exists sk sk1,
       main_run k rng = Ok sk
       /\ Simulation.step sk (rng (Z.to_nat k)) = Ok sk1
       /\ Simulation.run sk1 (steps - (k + 1)) (advance (Z.to_nat (k + 1)) rng)
          = main_run steps rng
       /\ length (SmartphoneEnvironment.price_history
                    (Simulation.environment sk1))
          = length (SmartphoneEnvironment.stock_history
                      (Simulation.environment sk1))
       /\ length (SmartphoneEnvironment.stock_history
                    (Simulation.environment sk1))
          = (length (SmartphoneAgent.buy_history (Simulation.agent sk1)) + 1)%nat
       /\ appends_one sk sk1.
Proof.
  intros Hsteps Hv. split.
  - destruct (main_run_ok steps Hv) as (s & Hrun & Hinv & Hlen).
    exists s. split; [exact Hrun|].
    rewrite (inv_price_length Hinv), (inv_stock_length Hinv), Hlen.
    rewrite Nat2Z.inj_succ, Z2Nat.id by exact Hsteps. lia.
  - intros k Hk.
    destruct (main_run_prefix (steps := steps) (k := k) (rng := rng))
      as (sk & Hrk & Hinvk & _ & _); [lia|exact Hv|].
    destruct (main_run_prefix (steps := steps) (k := k + 1) (rng := rng))
      as (sk1 & Hrk1 & Hinvk1 & _ & Hrest1); [lia|exact Hv|].
    exists sk, sk1. split; [exact Hrk|].
    rewrite main_run_succ, Hrk in Hrk1 by lia. simpl in Hrk1.
    split; [exact Hrk1|]. split; [exact Hrest1|].
    rewrite (inv_price_length Hinvk1), (inv_stock_length Hinvk1).
    split; [reflexivity|]. split; [lia|].
    pose proof (step_cases (rng (Z.to_nat k)) Hinvk) as Hstep.
    rewrite Hrk1 in Hstep. apply Hstep.
Qed.

Lemma history_lengths_witness :
  (0 <= 8)%Z
  /\ valid_rng steady_rng
  /\ exists s,
       main_run 8 steady_rng = Ok s
       /\ Z.of_nat (length (SmartphoneAgent.buy_history (Simulation.agent s)))
          = 8%Z
       /\ Z.of_nat (length (SmartphoneEnvironment.price_history
                              (Simulation.environment s)))
          = (8 + 1)%Z
       /\ Z.of_nat (length (SmartphoneEnvironment.stock_history
                              (Simulation.environment s)))
          = (8 + 1)%Z.
Proof.
  split; [lia|]. split; [exact steady_rng_valid|].
  apply (history_lengths (steps := 8) (rng := steady_rng));
    [lia|exact steady_rng_valid].
Defined.

(** C3: in every run, of any length, every entry of [stock_history] is at
    least 0 and every entry of [price_history] is at least the price floor
    100, the seeded first entries included. *)
Theorem histories_bounded (steps : Z) (rng : nat -> Draw) :
  valid_rng rng ->
  exists s,
    main_run steps rng = Ok s
    /\ forall i,
         (forall x,
             nth_error (SmartphoneEnvironment.stock_history
                          (Simulation.environment s)) i = Some x ->
             (0 <= x)%Z)
         /\ (forall p,
               nth_error (SmartphoneEnvironment.price_history
                            (Simulation.environment s)) i = Some p ->
               (100 <= p)%Q).
Proof.
  intros Hv. destruct (main_run_ok steps Hv) as (s & Hrun & Hinv & _).
  exists s. split; [exact Hrun|]. intros i. split.
  - intros x Hx. apply nth_error_In in Hx.
    exact (proj1 (Forall_forall _ _) (inv_stock_floor Hinv) x Hx).
  - intros p Hp. apply nth_error_In in Hp.
    exact (proj1 (Forall_forall _ _) (inv_price_floor Hinv) p Hp).
Qed.

Lemma histories_bounded_witness :
  valid_rng steady_rng
  /\ exists s,
       main_run 8 steady_rng = Ok s
       /\ forall i,
            (forall x,
                nth_error (SmartphoneEnvironment.stock_history
                             (Simulation.environment s)) i = Some x ->
                (0 <= x)%Z)
            /\ (forall p,
                  nth_error (SmartphoneEnvironment.price_history
                               (Simulation.environment s)) i = Some p ->
                  (100 <= p)%Q).
Proof.
  split; [exact steady_rng_valid|].
  apply (histories_bounded 8 steady_rng_valid).
Defined.

(** C10: throughout every run the agent's [average_price] stays at or above
    the price floor 100: it is so after each iteration, the updated average
    that the next decision divides by is so too, and the decision does not
    raise; no run ends in a [ZeroDivisionError], whatever the draws. *)
Theorem average_price_floor (steps : Z) (rng : nat -> Draw) :
  main_run steps rng <> Raise ZeroDivisionError
  /\ (valid_rng rng ->
      forall k, (0 <= k <= steps)%Z ->
      exists sk,
        main_run k rng = Ok sk
        /\ Simulation.run sk (steps - k) (advance (Z.to_nat k) rng)
           = main_run steps rng
        /\ (100 <= SmartphoneAgent.average_price (Simulation.agent sk))%Q
        /\ (100 <= SmartphoneAgent.average_price (Simulation.agent sk)
                   + (Percept.price (Simulation.percept sk)
                      - SmartphoneAgent.average_price (Simulation.agent sk))
                     * 0.1)%Q
        /\ exists r,
             SmartphoneAgent.select_action
               (Simulation.agent sk) (Simulation.percept sk) = Ok r).
Proof.
  split.
  - pose proof (main_run_cases steps rng) as H.
    destruct (main_run steps rng) as [s|e]; [discriminate|].
    destruct H as [-> _]. discriminate.
  - intros Hv k Hk.
    destruct (main_run_prefix Hk Hv) as (sk & Hrk & Hinvk & _ & Hrest).
    exists sk. split; [exact Hrk|]. split; [exact Hrest|].
    pose proof (smoothing_floor (inv_average Hinvk) (inv_percept_floor Hinvk))
      as Hfloor.
    split; [exact (inv_average Hinvk)|]. split; [exact Hfloor|].
    pose proof (select_action_cases (Simulation.agent sk)
                  (Simulation.percept sk)) as Hsel.
    destruct (SmartphoneAgent.select_action _ _) as [r|e].
    + exists r. reflexivity.
    + simpl in Hsel. destruct Hsel as [_ Hz]. rewrite Hz in Hfloor. lra.
Qed.

Lemma average_price_floor_witness :
  valid_rng steady_rng
  /\ (0 <= 5 <= 8)%Z
  /\ exists sk,
       main_run 5 steady_rng = Ok sk
       /\ (100 <= SmartphoneAgent.average_price (Simulation.agent sk))%Q.
Proof.
  split; [exact steady_rng_valid|]. split; [lia|].
  destruct (proj2 (average_price_floor 8 steady_rng) steady_rng_valid 5%Z)
    as (sk & Hrun & _ & Havg & _); [lia|].
  exists sk. split; assumption.
Defined.

(** C9 (as the code has it): a step count that is zero or negative is not
    rejected: [run] then executes no iteration and returns normally, with the
    agent, the environment, the percept and the console unchanged; a negative
    inventory threshold is not rejected either: the monitor is built, and it
    reports no low stock for any stock of at least 0. *)
Theorem run_nonpositive_steps (self : Simulation.t) (steps : Z)
  (rng : nat -> Draw) :
  (steps <= 0)%Z ->
  Simulation.run self steps rng = Ok self
  /\ forall threshold percept,
       (threshold < 0)%Z -> (0 <= Percept.stock percept)%Z ->
       InventoryMonitoringController.monitor
         (InventoryMonitoringController.init threshold) percept = false.
Proof.
  intros Hsteps. split.
  - unfold Simulation.run, Py.range.
    replace (Z.to_nat steps) with 0%nat by lia. reflexivity.
  - intros threshold percept Ht Hs.
    unfold InventoryMonitoringController.monitor. simpl.
    apply Z.ltb_ge. lia.
Qed.

Lemma run_nonpositive_steps_witness :
  (-5 <= 0)%Z
  /\ main_run (-5) steady_rng
     = Ok (Simulation.init SmartphoneAgent.init SmartphoneEnvironment.init).
Proof.
  split; [lia|].
  apply (run_nonpositive_steps
           (Simulation.init SmartphoneAgent.init SmartphoneEnvironment.init)
           steady_rng (steps := -5)).
  lia.
Defined.

(** C9, as stated, fails: a step count of 0 or of -5 is not rejected, the run
    returns normally on the initial state, and no exception of the program is
    a configuration error. *)
Lemma invalid_configuration_not_rejected :
  main_run 0 steady_rng
  = Ok (Simulation.init SmartphoneAgent.init SmartphoneEnvironment.init)
  /\ main_run (-5) steady_rng
     = Ok (Simulation.init SmartphoneAgent.init SmartphoneEnvironment.init)
  /\ (forall e, main_run (-5) steady_rng <> Raise e)
  /\ InventoryMonitoringController.threshold
       (InventoryMonitoringController.init (-1)) = (-1)%Z.
Proof.
  split; [reflexivity|]. split; [reflexivity|]. split; [|reflexivity].
  intros e. discriminate.
Qed.

(** * Further properties of the code *)

(** ** The outcomes of the sampler *)

(** [select_from_dist] returns nothing but an outcome of the distribution,
    and, when the drawn value is not negative, only one whose probability is
    strictly positive. *)
Theorem select_from_dist_positive_outcome {A : Type}
  (item_prob_dist : list (A * Q)) (u : Q) (x : A) :
  (0 <= u)%Q ->
  select_from_dist item_prob_dist u = Ok x ->
  exists prob, In (x, prob) item_prob_dist /\ (0 < prob)%Q.
Proof.
  unfold select_from_dist. revert u.
  induction item_prob_dist as [|[item prob] rest IH]; intros u Hu; simpl.
  - discriminate.
  - destruct (Py.ltb u prob) eqn:E.
    + apply Py_ltb_lt in E. intros H. injection H as <-.
      exists prob. split; [left; reflexivity|lra].
    + apply Py_ltb_ge in E. intros H.
      destruct (IH (u - prob)%Q) as (q & Hin & Hq); [lra|exact H|].
      exists q. split; [right; exact Hin|exact Hq].
Qed.

Lemma select_from_dist_positive_outcome_witness :
  (0 <= 0.6)%Q
  /\ select_from_dist SmartphoneEnvironment.daily_sales_dist 0.6 = Ok 7%Z
  /\ exists prob,
       In (7%Z, prob) SmartphoneEnvironment.daily_sales_dist /\ (0 < prob)%Q.
Proof.
  assert (Hu : (0 <= 0.6)%Q) by lra.
  assert (Hsel : select_from_dist SmartphoneEnvironment.daily_sales_dist 0.6
                 = Ok 7%Z) by reflexivity.
  split; [exact Hu|]. split; [exact Hsel|].
  exact (select_from_dist_positive_outcome _ Hu Hsel).
Defined.

(** ** The decision, unfolded *)

Lemma select_action_inversion (self self' : SmartphoneAgent.t)
  (percept : Percept.t) (action : Action) (log : DecisionLog) :
  SmartphoneAgent.select_action self percept = Ok (self', action, log) ->
  let average_price' :=
    (SmartphoneAgent.average_price self
     + (Percept.price percept - SmartphoneAgent.average_price self) * 0.1)%Q in
  let price_discount :=
    PriceMonitoringController.monitor
      (SmartphoneAgent.price_controller self) average_price' percept in
  let low_stock :=
    InventoryMonitoringController.monitor
      (SmartphoneAgent.inventory_controller self) percept in
  exists tobuy,
    OrderingController.order average_price' percept price_discount low_stock
    = Ok tobuy
    /\ action = {| buy := Some tobuy |}
    /\ self'
       = {| SmartphoneAgent.average_price := average_price';
            SmartphoneAgent.buy_history :=
              SmartphoneAgent.buy_history self ++ [tobuy];
            SmartphoneAgent.total_spent :=
              (SmartphoneAgent.total_spent self
               + inject_Z tobuy * Percept.price percept)%Q;
            SmartphoneAgent.price_controller :=
              SmartphoneAgent.price_controller self;
            SmartphoneAgent.inventory_controller :=
              SmartphoneAgent.inventory_controller self |}
    /\ log
       = {| log_time :=
              Z.of_nat (length (SmartphoneAgent.buy_history self ++ [tobuy]))
              - 1;
            log_price := Percept.price percept;
            log_stock := Percept.stock percept;
            log_price_discount := price_discount;
            log_low_stock := low_stock;
            log_average := average_price';
            log_tobuy := tobuy |}.
Proof.
  intros H average_price' price_discount low_stock.
  unfold SmartphoneAgent.select_action in H.
  fold average_price' price_discount low_stock in H.
  destruct (OrderingController.order average_price' percept price_discount
              low_stock) as [tobuy|e]; simpl in H; [|discriminate].
  injection H as <- <- <-. exists tobuy. auto.
Qed.

Lemma monitor_price_lt (self : PriceMonitoringController.t) (average : Q)
  (percept : Percept.t) :
  PriceMonitoringController.monitor self average percept = true
  <-> (Percept.price percept
       < (1 - PriceMonitoringController.discount_threshold self) * average)%Q.
Proof.
  unfold PriceMonitoringController.monitor. rewrite <- Py_ltb_lt.
  destruct (Py.ltb _ _); split; congruence.
Qed.

(** ** The quantities the agent orders *)

Lemma Py_int_bounds (x : Q) (a b : Z) :
  (0 <= a)%Z -> (inject_Z a <= x)%Q -> (x < inject_Z b)%Q ->
  (a <= Py.int x < b)%Z.
Proof.
  intros Ha Hlo Hhi.
  assert (H0 : (0 <= x)%Q).
  { apply Qle_trans with (inject_Z a); [|exact Hlo].
    unfold Qle. simpl. lia. }
  rewrite (Py_int_floor H0). unfold Py.floor.
  pose proof (Qfloor_le x) as Hfl. pose proof (Qlt_floor x) as Hfu.
  split.
  - assert (H : (inject_Z a < inject_Z (Qfloor x + 1))%Q) by lra.
    rewrite <- Zlt_Qlt in H. lia.
  - assert (H : (inject_Z (Qfloor x) < inject_Z b)%Q) by lra.
    rewrite <- Zlt_Qlt in H. exact H.
Qed.

Lemma discount_quantity_bounds (avg p : Q) :
  (0 < avg)%Q -> (0 < p)%Q -> (p < (1 - 0.2) * avg)%Q ->
  (18 <= Py.int (15 * (1 + (avg - p) / avg)) <= 29)%Z.
Proof.
  intros Havg Hp Hdisc.
  assert (Hlo : (0.2 < (avg - p) / avg)%Q) by (apply Qlt_shift_div_l; lra).
  assert (Hhi : ((avg - p) / avg < 1)%Q) by (apply Qlt_shift_div_r; lra).
  assert (H : (18 <= Py.int (15 * (1 + (avg - p) / avg)) < 30)%Z).
  { apply Py_int_bounds; [lia| |].
    - change (inject_Z 18) with 18%Q. lra.
    - change (inject_Z 30) with 30%Q. lra. }
  lia.
Qed.

Lemma select_action_decision (self self' : SmartphoneAgent.t)
  (percept : Percept.t) (action : Action) (log : DecisionLog) :
  SmartphoneAgent.price_controller self
  = PriceMonitoringController.init 0.2 ->
  SmartphoneAgent.inventory_controller self
  = InventoryMonitoringController.init 10 ->
  (0 < SmartphoneAgent.average_price self)%Q ->
  (0 < Percept.price percept)%Q ->
  SmartphoneAgent.select_action self percept = Ok (self', action, log) ->
  buy action = Some (log_tobuy log)
  /\ ((Percept.stock percept < 10)%Z -> log_tobuy log = 10%Z)
  /\ ((10 <= Percept.stock percept)%Z ->
      (Percept.price percept
       < (1 - 0.2) * SmartphoneAgent.average_price self')%Q ->
      (18 <= log_tobuy log <= 29)%Z)
  /\ ((10 <= Percept.stock percept)%Z ->
      ((1 - 0.2) * SmartphoneAgent.average_price self'
       <= Percept.price percept)%Q ->
      log_tobuy log = 0%Z).
Proof.
  intros Hpc Hic Havg Hprice Hsel.
  destruct (select_action_inversion _ _ Hsel)
    as (tobuy & Horder & -> & -> & ->).
  clear Hsel. simpl. rewrite Hpc, Hic in Horder.
  set (avg' := (SmartphoneAgent.average_price self
                + (Percept.price percept
                   - SmartphoneAgent.average_price self) * 0.1)%Q) in *.
  assert (Havg' : (0 < avg')%Q) by (unfold avg'; lra).
  unfold OrderingController.order, InventoryMonitoringController.monitor
    in Horder.
  simpl in Horder.
  split; [reflexivity|].
  destruct (PriceMonitoringController.monitor _ avg' percept) eqn:Ed;
    destruct (Percept.stock percept <? 10)%Z eqn:El; simpl in Horder;
    [apply Z.ltb_lt in El | apply Z.ltb_ge in El
    |apply Z.ltb_lt in El | apply Z.ltb_ge in El].
  1,3: injection Horder as <-; repeat split; intros; (reflexivity || lia).
  - apply monitor_price_lt in Ed. simpl in Ed.
    rewrite truediv_ok in Horder by lra. simpl in Horder.
    injection Horder as <-.
    split; [intros; lia|]. split.
    + intros _ _. apply discount_quantity_bounds; assumption.
    + intros _ H. lra.
  - injection Horder as <-.
    split; [intros; lia|]. split; [|reflexivity].
    intros _ H.
    assert (Hd : PriceMonitoringController.monitor
                   (PriceMonitoringController.init 0.2) avg' percept = true)
      by (apply monitor_price_lt; exact H).
    congruence.
Qed.

(** ** The environment's step *)

Lemma daily_sales_bracket (u : Q) (daily_sales : Z) :
  select_from_dist SmartphoneEnvironment.daily_sales_dist u = Ok daily_sales
  <-> demand_bracket u daily_sales.
Proof.
  unfold select_from_dist, SmartphoneEnvironment.daily_sales_dist,
    demand_bracket.
  simpl.
  repeat match goal with
         | |- context [Py.ltb ?a ?b] =>
             let E := fresh "E" in
             destruct (Py.ltb a b) eqn:E;
             [apply Py_ltb_lt in E | apply Py_ltb_ge in E]
         end;
    (split;
     [ intros H;
       first [ discriminate
             | injection H as <-; left; split; [lra|reflexivity]
             | injection H as <-; right; left; split; [lra|reflexivity]
             | injection H as <-; right; right; left; split; [lra|reflexivity]
             | injection H as <-; right; right; right; split; [lra|reflexivity] ]
     | intros [[H ->]|[[H ->]|[[H ->]|[H ->]]]];
       first [reflexivity | exfalso; lra] ]).
Qed.

Lemma daily_sales_raise (u : Q) (e : exn) :
  select_from_dist SmartphoneEnvironment.daily_sales_dist u = Raise e
  <-> e = RuntimeError /\ (1 <= u)%Q.
Proof.
  unfold select_from_dist, SmartphoneEnvironment.daily_sales_dist.
  simpl.
  repeat match goal with
         | |- context [Py.ltb ?a ?b] =>
             let E := fresh "E" in
             destruct (Py.ltb a b) eqn:E;
             [apply Py_ltb_lt in E | apply Py_ltb_ge in E]
         end;
    (split; [ intros H;
              first [ discriminate
                    | injection H as <-; split; [reflexivity|lra] ]
            | intros [-> H]; first [reflexivity | exfalso; lra] ]).
Qed.

(** [do_action] raises exactly when the value drawn by [random.random()] is
    1 or more, and then a [RuntimeError]; below 1 it returns, the demand being
    3, 5, 7 or 10 according to the interval of the draw: the clock advances by
    one, the new stock is the old stock plus the quantity bought minus the
    demand, or 0 if that is negative, and the percept returned is the new
    price and stock of the environment. *)
Theorem do_action_demand (self : SmartphoneEnvironment.t) (action : Action)
  (d : Draw) :
  (forall e,
      SmartphoneEnvironment.do_action self action d = Raise e
      <-> e = RuntimeError /\ (1 <= ranreal d)%Q)
  /\ ((ranreal d < 1)%Q ->
      exists daily_sales self' percept',
        SmartphoneEnvironment.do_action self action d = Ok (self', percept')
        /\ demand_bracket (ranreal d) daily_sales
        /\ SmartphoneEnvironment.time self'
           = (SmartphoneEnvironment.time self + 1)%Z
        /\ SmartphoneEnvironment.stock self'
           = Z.max 0 (SmartphoneEnvironment.stock self
                      + Action_get_buy action 0 - daily_sales)
        /\ Percept.stock percept' = SmartphoneEnvironment.stock self'
        /\ Percept.price percept' = SmartphoneEnvironment.price self').
Proof.
  unfold SmartphoneEnvironment.do_action.
  pose proof (fun e => daily_sales_raise (ranreal d) e) as Hraise.
  pose proof (fun x => daily_sales_bracket (ranreal d) x) as Hret.
  destruct (select_from_dist SmartphoneEnvironment.daily_sales_dist
              (ranreal d)) as [daily_sales|e0]; simpl.
  - split.
    + intros e. split; [discriminate|]. intros He.
      apply Hraise in He. discriminate.
    + intros _. eexists daily_sales, _, _. split; [reflexivity|]. simpl.
      split; [apply Hret; reflexivity|]. auto.
  - split.
    + intros e. split.
      * intros H. injection H as <-. apply Hraise. reflexivity.
      * intros H. apply Hraise in H. injection H as <-. reflexivity.
    + intros Hu. destruct (proj1 (Hraise e0) eq_refl) as [_ H]. lra.
Qed.

Lemma do_action_demand_witness :
  (ranreal (steady_rng 0) < 1)%Q
  /\ exists daily_sales self' percept',
       SmartphoneEnvironment.do_action SmartphoneEnvironment.init
         {| buy := Some 4%Z |} (steady_rng 0)
       = Ok (self', percept')
       /\ demand_bracket (ranreal (steady_rng 0)) daily_sales
       /\ SmartphoneEnvironment.stock self' = Z.max 0 (50 + 4 - daily_sales).
Proof.
  assert (Hu : (ranreal (steady_rng 0) < 1)%Q) by (simpl; lra).
  split; [exact Hu|].
  destruct (proj2 (do_action_demand SmartphoneEnvironment.init
                     {| buy := Some 4%Z |} (steady_rng 0)) Hu)
    as (ds & self' & percept' & Hdo & Hbr & _ & Hstock & _).
  exists ds, self', percept'. auto.
Defined.

(** ** One iteration, in full *)

Lemma step_inversion (s s' : Simulation.t) (d : Draw) :
  Simulation.step s d = Ok s' ->
  exists agent' tobuy log daily_sales,
    SmartphoneAgent.select_action (Simulation.agent s) (Simulation.percept s)
    = Ok (agent', {| buy := Some tobuy |}, log)
    /\ demand_bracket (ranreal d) daily_sales
    /\ Simulation.agent s' = agent'
    /\ Simulation.console s' = Simulation.console s ++ [log]
    /\ SmartphoneEnvironment.time (Simulation.environment s')
       = (SmartphoneEnvironment.time (Simulation.environment s) + 1)%Z
    /\ SmartphoneEnvironment.stock (Simulation.environment s')
       = Z.max 0 (SmartphoneEnvironment.stock (Simulation.environment s)
                  + tobuy - daily_sales)
    /\ SmartphoneEnvironment.stock_history (Simulation.environment s')
       = SmartphoneEnvironment.stock_history (Simulation.environment s)
         ++ [SmartphoneEnvironment.stock (Simulation.environment s')]
    /\ SmartphoneEnvironment.price_history (Simulation.environment s')
       = SmartphoneEnvironment.price_history (Simulation.environment s)
         ++ [SmartphoneEnvironment.price (Simulation.environment s')]
    /\ Percept.price (Simulation.percept s')
       = SmartphoneEnvironment.price (Simulation.environment s')
    /\ Percept.stock (Simulation.percept s')
       = SmartphoneEnvironment.stock (Simulation.environment s').
Proof.
  unfold Simulation.step. intros H.
  destruct (SmartphoneAgent.select_action _ _)
    as [[[agent' action] log]|e] eqn:Hsel; simpl in H; [|discriminate].
  destruct (select_action_inversion _ _ Hsel) as (tobuy & _ & -> & _ & _).
  unfold SmartphoneEnvironment.do_action in H.
  destruct (select_from_dist SmartphoneEnvironment.daily_sales_dist
              (ranreal d)) as [daily_sales|e] eqn:Hds; simpl in H;
    [|discriminate].
  injection H as <-. simpl.
  exists agent', tobuy, log, daily_sales.
  split; [reflexivity|]. split; [apply daily_sales_bracket, Hds|].
  repeat split.
Qed.

Lemma units_bought_snoc (buys : list Z) (tobuy : Z) :
  units_bought (buys ++ [tobuy]) = (units_bought buys + tobuy)%Z.
Proof.
  unfold units_bought. induction buys as [|b buys IH]; simpl; lia.
Qed.

Lemma firstn_length_app {A : Type} (l r : list A) :
  firstn (length l) (l ++ r) = l.
Proof.
  induction l as [|x l IH]; simpl; [reflexivity | rewrite IH; reflexivity].
Qed.

Lemma firstn_snoc_nth {A : Type} (l : list A) (n : nat) (d : A) :
  length l = S n -> l = firstn n l ++ [nth n l d].
Proof.
  revert n. induction l as [|x l IH]; intros n H; simpl in H.
  - discriminate.
  - destruct n as [|n].
    + destruct l; [reflexivity|discriminate].
    + simpl. f_equal. apply IH. lia.
Qed.

Lemma initial_run_inv :
  run_inv (Simulation.init SmartphoneAgent.init SmartphoneEnvironment.init).
Proof.
  constructor; simpl; try reflexivity.
  - constructor.
  - vm_compute. discriminate.
  - intros lo hi H. inversion H; subst. assumption.
Qed.

Lemma step_run_inv (s s' : Simulation.t) (d : Draw) :
  sim_inv s -> run_inv s -> Simulation.step s d = Ok s' -> run_inv s'.
Proof.
  intros Hinv Hrun Hstep.
  destruct (step_inversion _ _ Hstep)
    as (agent' & tobuy & log & ds & Hsel & _ & Hagent & Hconsole & Htime
        & _ & Hsh & Hph & Hpp & Hps).
  pose proof (inv_average Hinv) as Havg.
  pose proof (inv_percept_floor Hinv) as Hprice.
  assert (Hq : (0 <= tobuy <= 29)%Z).
  { destruct (@select_action_decision _ _ _ _ _
                (rinv_price_controller Hrun) (rinv_inventory_controller Hrun)
                (Qlt_le_trans 0 100 _ eq_refl Havg)
                (Qlt_le_trans 0 100 _ eq_refl Hprice) Hsel)
      as (_ & Hlow & Hdisc & Hnone).
    destruct (select_action_inversion _ _ Hsel) as (t & _ & Ha & _ & Hlog).
    injection Ha as <-. rewrite Hlog in Hlow, Hdisc, Hnone.
    simpl in Hlow, Hdisc, Hnone.
    destruct (Z.lt_ge_cases (Percept.stock (Simulation.percept s)) 10)
      as [Hs|Hs].
    - rewrite (Hlow Hs). lia.
    - destruct (Qlt_le_dec (Percept.price (Simulation.percept s))
                  ((1 - 0.2) * SmartphoneAgent.average_price agent'))
        as [Hd|Hd].
      + specialize (Hdisc Hs Hd). lia.
      + rewrite (Hnone Hs Hd). lia. }
  destruct (select_action_inversion _ _ Hsel) as (t & _ & Ha & Hag & Hlog).
  injection Ha as <-.
  set (n := length (SmartphoneAgent.buy_history (Simulation.agent s))) in *.
  pose proof (inv_price_length Hinv) as Hpl. fold n in Hpl.
  pose proof (inv_stock_length Hinv) as Hsl. fold n in Hsl.
  assert (Hn' : length (SmartphoneAgent.buy_history (Simulation.agent s'))
                = S n).
  { rewrite Hagent, Hag. simpl. rewrite length_app. simpl. fold n. lia. }
  assert (Hbuys : SmartphoneAgent.buy_history (Simulation.agent s')
                  = SmartphoneAgent.buy_history (Simulation.agent s)
                    ++ [tobuy]).
  { rewrite Hagent, Hag. reflexivity. }
  constructor.
  - rewrite Htime, (rinv_time Hrun), Hn'. fold n. lia.
  - exact Hpp.
  - exact Hps.
  - rewrite Hn', Hsh, <- Hsl, nth_middle. symmetry. exact Hps.
  - rewrite Hagent, Hag. simpl. exact (rinv_price_controller Hrun).
  - rewrite Hagent, Hag. simpl. exact (rinv_inventory_controller Hrun).
  - rewrite Hbuys. apply Forall_app. split; [exact (rinv_buys Hrun)|].
    constructor; [exact Hq|constructor].
  - rewrite Hbuys, units_bought_snoc, inject_Z_plus.
    rewrite Hagent, Hag. simpl.
    pose proof (rinv_spent Hrun) as Hspent.
    assert (H0 : (0 <= inject_Z tobuy)%Q)
      by (unfold Qle; simpl; lia).
    pose proof (Qmult_le_0_compat _ _ H0
                  (proj1 (Qle_minus_iff _ _) Hprice)) as Hm.
    lra.
  - intros lo hi Hall. rewrite Hph in Hall. apply Forall_app in Hall.
    destruct Hall as [Hall _].
    pose proof (rinv_average Hrun Hall) as Ha.
    assert (Hp : (lo <= Percept.price (Simulation.percept s) <= hi)%Q).
    { rewrite <- (inv_percept Hinv). fold n.
      apply (proj1 (Forall_forall _ _) Hall). apply nth_In. lia. }
    rewrite Hagent, Hag. simpl. lra.
  - rewrite Hconsole, map_app, (rinv_log_tobuy Hrun), Hbuys, Hlog.
    reflexivity.
  - rewrite Hconsole, map_app, (rinv_log_time Hrun), Hn', seq_S, map_app.
    fold n. rewrite Hlog. simpl. rewrite length_app. simpl. fold n.
    do 2 f_equal. lia.
  - rewrite Hconsole, map_app, (rinv_log_price Hrun), Hn', Hph, <- Hpl.
    rewrite firstn_length_app. fold n. rewrite Hlog. simpl.
    rewrite <- (inv_percept Hinv). fold n.
    symmetry. apply firstn_snoc_nth. exact Hpl.
  - rewrite Hconsole, map_app, (rinv_log_stock Hrun), Hn', Hsh, <- Hsl.
    rewrite firstn_length_app. fold n. rewrite Hlog. simpl.
    rewrite <- (rinv_last_stock Hrun). fold n.
    symmetry. apply firstn_snoc_nth. exact Hsl.
Qed.

(** ** The run, in full *)

Lemma loop_run_inv (l : list nat) (rng : nat -> Draw) (s s' : Simulation.t) :
  sim_inv s -> run_inv s -> Simulation.loop l rng s = Ok s' -> run_inv s'.
Proof.
  revert rng s. induction l as [|x l IH]; intros rng s Hinv Hrun; simpl.
  - intros H. injection H as <-. exact Hrun.
  - pose proof (step_cases (rng 0%nat) Hinv) as Hstep.
    destruct (Simulation.step s (rng 0%nat)) as [s1|e] eqn:E; simpl;
      [|discriminate].
    destruct Hstep as [Hinv1 _]. apply IH; [exact Hinv1|].
    eapply step_run_inv; [exact Hinv|exact Hrun|exact E].
Qed.

Lemma loop_extends_stock (l : list nat) (rng : nat -> Draw)
  (s s' : Simulation.t) :
  sim_inv s ->
  Simulation.loop l rng s = Ok s' ->
  exists stocks,
    SmartphoneEnvironment.stock_history (Simulation.environment s')
    = SmartphoneEnvironment.stock_history (Simulation.environment s)
      ++ stocks.
Proof.
  revert rng s. induction l as [|x l IH]; intros rng s Hinv; simpl.
  - intros H. injection H as <-. exists []. rewrite app_nil_r. reflexivity.
  - pose proof (step_cases (rng 0%nat) Hinv) as Hstep.
    destruct (Simulation.step s (rng 0%nat)) as [s1|e]; simpl; [|discriminate].
    destruct Hstep as [Hinv1 (b & p & st & _ & _ & Hs)].
    intros H. destruct (IH _ _ Hinv1 H) as (stocks & Hs').
    exists (st :: stocks). rewrite Hs', Hs, <- app_assoc. reflexivity.
Qed.

Lemma main_run_full (steps : Z) (rng : nat -> Draw) :
  valid_rng rng ->
  exists s,
    main_run steps rng = Ok s
    /\ sim_inv s
    /\ run_inv s
    /\ length (SmartphoneAgent.buy_history (Simulation.agent s))
       = Z.to_nat steps.
Proof.
  intros Hv. destruct (main_run_ok steps Hv) as (s & Hrun & Hinv & Hlen).
  exists s. split; [exact Hrun|]. split; [exact Hinv|]. split; [|exact Hlen].
  unfold main_run, Simulation.run in Hrun.
  eapply loop_run_inv; [exact initial_inv|exact initial_run_inv|exact Hrun].
Qed.

(** The iteration [k] of a run of [steps] steps: the state [sk] before it,
    the state [sk1] after it, and where the final histories keep what it
    saw and did. *)
Lemma main_run_step_view (steps k : Z) (rng : nat -> Draw) :
  (0 <= k < steps)%Z ->
  valid_rng rng ->
  exists s sk sk1,
    main_run steps rng = Ok s
    /\ main_run k rng = Ok sk
    /\ main_run (k + 1) rng = Ok sk1
    /\ Simulation.step sk (rng (Z.to_nat k)) = Ok sk1
    /\ sim_inv sk /\ run_inv sk /\ sim_inv sk1 /\ run_inv sk1
    /\ SmartphoneAgent.buy_history (Simulation.agent sk1)
       = SmartphoneAgent.buy_history (Simulation.agent sk)
         ++ [nth (Z.to_nat k)
               (SmartphoneAgent.buy_history (Simulation.agent s)) 0%Z]
    /\ nth (Z.to_nat k)
         (SmartphoneEnvironment.price_history (Simulation.environment s)) 0%Q
       = Percept.price (Simulation.percept sk)
    /\ nth (Z.to_nat k)
         (SmartphoneEnvironment.stock_history (Simulation.environment s)) 0%Z
       = Percept.stock (Simulation.percept sk)
    /\ nth (S (Z.to_nat k))
         (SmartphoneEnvironment.stock_history (Simulation.environment s)) 0%Z
       = Percept.stock (Simulation.percept sk1).
Proof.
  intros Hk Hv.
  destruct (main_run_full steps Hv) as (s & Hrun & Hinv & _ & _).
  destruct (main_run_prefix (steps := steps) (k := k) (rng := rng))
    as (sk & Hrk & Hinvk & Hlenk & Hrest); [lia|exact Hv|].
  destruct (main_run_prefix (steps := steps) (k := k + 1) (rng := rng))
    as (sk1 & Hrk1 & Hinvk1 & Hlenk1 & Hrest1); [lia|exact Hv|].
  assert (Hrunk : run_inv sk).
  { unfold main_run, Simulation.run in Hrk.
    eapply loop_run_inv; [exact initial_inv|exact initial_run_inv|exact Hrk]. }
  assert (Hrunk1 : run_inv sk1).
  { unfold main_run, Simulation.run in Hrk1.
    eapply loop_run_inv; [exact initial_inv|exact initial_run_inv|exact Hrk1]. }
  exists s, sk, sk1.
  split; [exact Hrun|]. split; [exact Hrk|]. split; [exact Hrk1|].
  rewrite Hrun in Hrest, Hrest1.
  assert (Hstep : Simulation.step sk (rng (Z.to_nat k)) = Ok sk1).
  { rewrite main_run_succ, Hrk in Hrk1 by lia. exact Hrk1. }
  split; [exact Hstep|].
  split; [exact Hinvk|]. split; [exact Hrunk|].
  split; [exact Hinvk1|]. split; [exact Hrunk1|].
  destruct (loop_extends _ _ Hinvk Hrest) as (_ & prices & _ & Hprices).
  destruct (loop_extends _ _ Hinvk1 Hrest1) as (buys & _ & Hbuys & _).
  destruct (loop_extends_stock _ _ Hinvk Hrest) as (stocks & Hstocks).
  destruct (loop_extends_stock _ _ Hinvk1 Hrest1) as (stocks1 & Hstocks1).
  destruct (step_spent _ _ Hstep) as (tobuy & Hb & _).
  split; [|split; [|split]].
  - rewrite Hbuys, Hb, <- app_assoc, <- Hlenk. simpl.
    rewrite nth_middle. reflexivity.
  - rewrite Hprices, app_nth1, <- Hlenk.
    + apply (inv_percept Hinvk).
    + rewrite (inv_price_length Hinvk). lia.
  - rewrite Hstocks, app_nth1, <- Hlenk.
    + apply (rinv_last_stock Hrunk).
    + rewrite (inv_stock_length Hinvk). lia.
  - rewrite Hstocks1, app_nth1.
    + rewrite <- (rinv_last_stock Hrunk1), Hb, length_app, Hlenk. simpl.
      f_equal. lia.
    + rewrite (inv_stock_length Hinvk1), Hb, length_app, Hlenk. simpl. lia.
Qed.

Lemma step_decision (s s' : Simulation.t) (d : Draw) :
  Simulation.step s d = Ok s' ->
  exists log,
    SmartphoneAgent.select_action (Simulation.agent s) (Simulation.percept s)
    = Ok (Simulation.agent s', {| buy := Some (log_tobuy log) |}, log)
    /\ SmartphoneAgent.buy_history (Simulation.agent s')
       = SmartphoneAgent.buy_history (Simulation.agent s) ++ [log_tobuy log].
Proof.
  intros Hstep.
  destruct (step_inversion _ _ Hstep)
    as (agent' & tobuy & log & ds & Hsel & _ & Hagent & _).
  destruct (select_action_inversion _ _ Hsel) as (t & _ & Ha & Hag & Hlog).
  injection Ha as <-. exists log.
  assert (Ht : log_tobuy log = tobuy) by (rewrite Hlog; reflexivity).
  rewrite Ht, Hagent. split; [exact Hsel|]. rewrite Hag. reflexivity.
Qed.

(** ** Properties of whole runs *)

(** After [run(steps)], [steps >= 0], on a fresh agent and environment, the
    clock of the environment is [steps], its current price and stock are the
    entries of index [steps] (the last ones) of its histories, and the percept
    that the simulation holds is that price and that stock. *)
Theorem environment_clock_and_snapshot (steps : Z) (rng : nat -> Draw) :
  (0 <= steps)%Z ->
  valid_rng rng ->
  exists s,
    main_run steps rng = Ok s
    /\ SmartphoneEnvironment.time (Simulation.environment s) = steps
    /\ Simulation.percept s
       = SmartphoneEnvironment.initial_percept (Simulation.environment s)
    /\ SmartphoneEnvironment.price (Simulation.environment s)
       = nth (Z.to_nat steps)
           (SmartphoneEnvironment.price_history (Simulation.environment s)) 0%Q
    /\ SmartphoneEnvironment.stock (Simulation.environment s)
       = nth (Z.to_nat steps)
           (SmartphoneEnvironment.stock_history (Simulation.environment s)) 0%Z
    /\ length (SmartphoneEnvironment.price_history (Simulation.environment s))
       = S (Z.to_nat steps).
Proof.
  intros Hsteps Hv.
  destruct (main_run_full steps Hv) as (s & Hrun & Hinv & Hr & Hlen).
  exists s. split; [exact Hrun|].
  split; [rewrite (rinv_time Hr), Hlen; lia|].
  split.
  - unfold SmartphoneEnvironment.initial_percept.
    rewrite <- (rinv_price Hr), <- (rinv_stock Hr).
    destruct (Simulation.percept s). reflexivity.
  - rewrite <- Hlen, (inv_percept Hinv), (rinv_last_stock Hr).
    split; [symmetry; exact (rinv_price Hr)|].
    split; [symmetry; exact (rinv_stock Hr)|].
    exact (inv_price_length Hinv).
Qed.

Lemma environment_clock_and_snapshot_witness :
  (0 <= 8)%Z
  /\ valid_rng steady_rng
  /\ exists s,
       main_run 8 steady_rng = Ok s
       /\ SmartphoneEnvironment.time (Simulation.environment s) = 8%Z.
Proof.
  split; [lia|]. split; [exact steady_rng_valid|].
  destruct (environment_clock_and_snapshot (steps := 8) (rng := steady_rng))
    as (s & Hrun & Htime & _); [lia|exact steady_rng_valid|].
  exists s. split; assumption.
Defined.

(** In a run on a fresh agent and environment, the quantity ordered at step
    [k] is between 0 and 29; it is 10 exactly when the stock the agent saw,
    [stock_history[k]], is below 10, and otherwise it is 0 or at least 18. *)
Theorem buy_history_decisions (steps : Z) (rng : nat -> Draw) :
  valid_rng rng ->
  exists s,
    main_run steps rng = Ok s
    /\ forall k, (0 <= k < steps)%Z ->
       let tobuy :=
         nth (Z.to_nat k)
           (SmartphoneAgent.buy_history (Simulation.agent s)) 0%Z in
       let seen_stock :=
         nth (Z.to_nat k)
           (SmartphoneEnvironment.stock_history (Simulation.environment s))
           0%Z in
       (0 <= tobuy <= 29)%Z
       /\ ((seen_stock < 10)%Z <-> tobuy = 10%Z)
       /\ ((10 <= seen_stock)%Z -> tobuy = 0%Z \/ (18 <= tobuy)%Z).
Proof.
  intros Hv.
  destruct (main_run_full steps Hv) as (s & Hrun & _ & _ & _).
  exists s. split; [exact Hrun|]. intros k Hk tobuy seen_stock.
  destruct (main_run_step_view Hk Hv)
    as (s0 & sk & sk1 & Hrun0 & _ & _ & Hstep & Hinvk & Hrk & _ & _
        & Hb & _ & Hst & _).
  rewrite Hrun in Hrun0. injection Hrun0 as <-.
  fold tobuy in Hb. fold seen_stock in Hst.
  destruct (step_decision _ _ Hstep) as (log & Hsel & Hb').
  rewrite Hb in Hb'. apply app_inv_head in Hb'. injection Hb' as Ht.
  destruct (@select_action_decision _ _ _ _ _
              (rinv_price_controller Hrk) (rinv_inventory_controller Hrk)
              (Qlt_le_trans 0 100 _ eq_refl (inv_average Hinvk))
              (Qlt_le_trans 0 100 _ eq_refl (inv_percept_floor Hinvk)) Hsel)
    as (_ & Hlow & Hdisc & Hnone).
  rewrite <- Ht, <- Hst in *.
  destruct (Z.lt_ge_cases seen_stock 10) as [Hs|Hs].
  - specialize (Hlow Hs). repeat split; intros; lia.
  - destruct (Qlt_le_dec (Percept.price (Simulation.percept sk))
                ((1 - 0.2)
                 * SmartphoneAgent.average_price (Simulation.agent sk1)))
      as [Hd|Hd].
    + specialize (Hdisc Hs Hd). repeat split; intros; lia.
    + specialize (Hnone Hs Hd). repeat split; intros; lia.
Qed.

Lemma buy_history_decisions_witness :
  valid_rng steady_rng
  /\ exists s,
       main_run 8 steady_rng = Ok s
       /\ (0 <= nth 6 (SmartphoneAgent.buy_history (Simulation.agent s)) 0
           <= 29)%Z.
Proof.
  split; [exact steady_rng_valid|].
  destruct (buy_history_decisions 8 steady_rng_valid) as (s & Hrun & H).
  exists s. split; [exact Hrun|].
  apply (H 6%Z). lia.
Defined.

(** In a run on a fresh agent and environment, [total_spent] never
    decreases from one step to the next, and at the end it is at least 100
    times the number of units bought: no unit is paid less than the price
    floor. *)
Theorem total_spent_monotone (steps : Z) (rng : nat -> Draw) :
  valid_rng rng ->
  exists s,
    main_run steps rng = Ok s
    /\ (0 <= SmartphoneAgent.total_spent (Simulation.agent s))%Q
    /\ (100 * inject_Z (units_bought
                          (SmartphoneAgent.buy_history (Simulation.agent s)))
        <= SmartphoneAgent.total_spent (Simulation.agent s))%Q
    /\ forall k, (0 <= k < steps)%Z ->
       exists sk sk1,
         main_run k rng = Ok sk
         /\ main_run (k + 1) rng = Ok sk1
         /\ (SmartphoneAgent.total_spent (Simulation.agent sk)
             <= SmartphoneAgent.total_spent (Simulation.agent sk1))%Q.
Proof.
  intros Hv.
  destruct (main_run_full steps Hv) as (s & Hrun & _ & Hr & _).
  exists s. split; [exact Hrun|].
  assert (Hunits : (0 <= units_bought
                            (SmartphoneAgent.buy_history (Simulation.agent s)))%Z).
  { pose proof (rinv_buys Hr) as Hb. unfold units_bought.
    induction Hb as [|b buys Hb _ IH]; simpl; lia. }
  pose proof (rinv_spent Hr) as Hspent.
  assert (H0 : (0 <= inject_Z
                       (units_bought
                          (SmartphoneAgent.buy_history (Simulation.agent s))))%Q)
    by (unfold Qle; simpl; lia).
  split; [lra|]. split; [exact Hspent|].
  intros k Hk.
  destruct (main_run_step_view Hk Hv)
    as (_ & sk & sk1 & _ & Hrk & Hrk1 & Hstep & Hinvk & _ & _ & Hrk1'
        & _).
  exists sk, sk1. split; [exact Hrk|]. split; [exact Hrk1|].
  destruct (step_spent _ _ Hstep) as (tobuy & Hb & ->).
  pose proof (rinv_buys Hrk1') as Hbuys. rewrite Hb in Hbuys.
  apply Forall_app in Hbuys. destruct Hbuys as [_ Hbuys].
  inversion Hbuys as [|b l Htobuy _]; subst.
  assert (Ht : (0 <= inject_Z tobuy)%Q) by (unfold Qle; simpl; lia).
  pose proof (inv_percept_floor Hinvk) as Hp.
  assert (Hp0 : (0 <= Percept.price (Simulation.percept sk))%Q) by lra.
  pose proof (Qmult_le_0_compat _ _ Ht Hp0). lra.
Qed.

Lemma total_spent_monotone_witness :
  valid_rng steady_rng
  /\ exists s,
       main_run 8 steady_rng = Ok s
       /\ (0 <= SmartphoneAgent.total_spent (Simulation.agent s))%Q.
Proof.
  split; [exact steady_rng_valid|].
  destruct (total_spent_monotone 8 steady_rng_valid) as (s & Hrun & H & _).
  exists s. split; assumption.
Defined.

(** In a run on a fresh agent and environment, the stock recorded after step
    [k] is the stock recorded before it, plus the quantity ordered at step
    [k], minus the demand drawn at that step (3, 5, 7 or 10, by the interval
    of the draw), or 0 if that is negative. *)
Theorem stock_history_bookkeeping (steps : Z) (rng : nat -> Draw) :
  valid_rng rng ->
  exists s,
    main_run steps rng = Ok s
    /\ forall k, (0 <= k < steps)%Z ->
       exists daily_sales,
         demand_bracket (ranreal (rng (Z.to_nat k))) daily_sales
         /\ nth (S (Z.to_nat k))
              (SmartphoneEnvironment.stock_history (Simulation.environment s))
              0%Z
            = Z.max 0
                (nth (Z.to_nat k)
                   (SmartphoneEnvironment.stock_history
                      (Simulation.environment s)) 0%Z
                 + nth (Z.to_nat k)
                     (SmartphoneAgent.buy_history (Simulation.agent s)) 0%Z
                 - daily_sales).
Proof.
  intros Hv.
  destruct (main_run_full steps Hv) as (s & Hrun & _ & _ & _).
  exists s. split; [exact Hrun|]. intros k Hk.
  destruct (main_run_step_view Hk Hv)
    as (s0 & sk & sk1 & Hrun0 & _ & _ & Hstep & _ & Hrk & _ & _
        & Hb & _ & Hst & Hst1).
  rewrite Hrun in Hrun0. injection Hrun0 as <-.
  destruct (step_inversion _ _ Hstep)
    as (agent' & tobuy & log & ds & Hsel & Hds & Hagent & _ & _
        & Hstock & _ & _ & _ & Hps).
  destruct (step_decision _ _ Hstep) as (log' & Hsel' & Hb').
  rewrite Hsel in Hsel'. injection Hsel' as _ Ht _.
  rewrite Hb in Hb'. apply app_inv_head in Hb'. injection Hb' as Hnth.
  exists ds. split; [exact Hds|].
  rewrite Hst1, Hst, Hps, Hstock, Hnth, <- Ht, (rinv_stock Hrk).
  reflexivity.
Qed.

Lemma stock_history_bookkeeping_witness :
  valid_rng steady_rng
  /\ exists s daily_sales,
       main_run 8 steady_rng = Ok s
       /\ nth 7 (SmartphoneEnvironment.stock_history
                   (Simulation.environment s)) 0%Z
          = Z.max 0
              (nth 6 (SmartphoneEnvironment.stock_history
                        (Simulation.environment s)) 0%Z
               + nth 6 (SmartphoneAgent.buy_history (Simulation.agent s)) 0%Z
               - daily_sales).
Proof.
  split; [exact steady_rng_valid|].
  destruct (stock_history_bookkeeping 8 steady_rng_valid) as (s & Hrun & H).
  destruct (H 6%Z) as (ds & _ & Hds); [lia|].
  exists s, ds. split; [exact Hrun|exact Hds].
Defined.

(** [run] resumes where the last call stopped: on any simulation, [run(k)]
    followed by [run(m)] is [run(k + m)] for [k] and [m] of at least 0, with
    the same final state, or the same exception at the same step. *)
Theorem run_resumes (self : Simulation.t) (k m : Z) (rng : nat -> Draw) :
  (0 <= k)%Z -> (0 <= m)%Z ->
  Simulation.run self (k + m) rng
  = bind (Simulation.run self k rng)
         (fun self' => Simulation.run self' m (advance (Z.to_nat k) rng)).
Proof. intros Hk Hm. apply run_split; assumption. Qed.

Lemma run_resumes_witness :
  (0 <= 3)%Z /\ (0 <= 5)%Z
  /\ main_run (3 + 5) steady_rng
     = bind (main_run 3 steady_rng)
            (fun self' =>
               Simulation.run self' 5 (advance (Z.to_nat 3) steady_rng)).
Proof.
  split; [lia|]. split; [lia|].
  apply (run_resumes
           (Simulation.init SmartphoneAgent.init SmartphoneEnvironment.init)
           steady_rng (k := 3) (m := 5)); lia.
Defined.

(** After [run(steps)], [steps >= 0], on a fresh agent and environment, the
    decision log has one record per step and is a projection of the
    histories: the record of index [k] shows the time [k], the price
    [price_history[k]], the stock [stock_history[k]] and the quantity
    [buy_history[k]]. *)
Theorem console_projects_histories (steps : Z) (rng : nat -> Draw) :
  (0 <= steps)%Z ->
  valid_rng rng ->
  exists s,
    main_run steps rng = Ok s
    /\ Z.of_nat (length (Simulation.console s)) = steps
    /\ map log_time (Simulation.console s)
       = map Z.of_nat (seq 0 (Z.to_nat steps))
    /\ map log_price (Simulation.console s)
       = firstn (Z.to_nat steps)
           (SmartphoneEnvironment.price_history (Simulation.environment s))
    /\ map log_stock (Simulation.console s)
       = firstn (Z.to_nat steps)
           (SmartphoneEnvironment.stock_history (Simulation.environment s))
    /\ map log_tobuy (Simulation.console s)
       = SmartphoneAgent.buy_history (Simulation.agent s).
Proof.
  intros Hsteps Hv.
  destruct (main_run_full steps Hv) as (s & Hrun & _ & Hr & Hlen).
  exists s. split; [exact Hrun|].
  split.
  - rewrite <- (length_map log_tobuy), (rinv_log_tobuy Hr), Hlen. lia.
  - rewrite <- Hlen.
    split; [exact (rinv_log_time Hr)|].
    split; [exact (rinv_log_price Hr)|].
    split; [exact (rinv_log_stock Hr)|exact (rinv_log_tobuy Hr)].
Qed.

Lemma console_projects_histories_witness :
  (0 <= 8)%Z
  /\ valid_rng steady_rng
  /\ exists s,
       main_run 8 steady_rng = Ok s
       /\ Z.of_nat (length (Simulation.console s)) = 8%Z
       /\ map log_tobuy (Simulation.console s)
          = SmartphoneAgent.buy_history (Simulation.agent s).
Proof.
  split; [lia|]. split; [exact steady_rng_valid|].
  destruct (console_projects_histories (steps := 8) (rng := steady_rng))
    as (s & Hrun & Hlen & _ & _ & _ & Hb); [lia|exact steady_rng_valid|].
  exists s. auto.
Defined.

(** After any run on a fresh agent and environment, the agent's
    [average_price] lies within any bounds that hold for all the entries of
    [price_history]: the smoothing never leaves the range of the prices
    observed, the seed 600 being the first of them. *)
Theorem average_price_within_prices (steps : Z) (rng : nat -> Draw) :
  valid_rng rng ->
  exists s,
    main_run steps rng = Ok s
    /\ forall lo hi,
         Forall (fun p => (lo <= p <= hi)%Q)
           (SmartphoneEnvironment.price_history (Simulation.environment s)) ->
         (lo <= SmartphoneAgent.average_price (Simulation.agent s) <= hi)%Q.
Proof.
  intros Hv.
  destruct (main_run_full steps Hv) as (s & Hrun & _ & Hr & _).
  exists s. split; [exact Hrun|]. exact (rinv_average Hr).
Qed.

Lemma average_price_within_prices_witness :
  valid_rng steady_rng
  /\ exists s,
       main_run 8 steady_rng = Ok s
       /\ forall lo hi,
            Forall (fun p => (lo <= p <= hi)%Q)
              (SmartphoneEnvironment.price_history
                 (Simulation.environment s)) ->
            (lo <= SmartphoneAgent.average_price (Simulation.agent s)
             <= hi)%Q.
Proof.
  split; [exact steady_rng_valid|].
  exact (average_price_within_prices 8 steady_rng_valid).
Defined.


(** * The functions on binary64 *)

(** ** Comparisons of floats with zero *)

Lemma b64_zero_spec : Prim2SF 0%float = S754_zero false.
Proof. reflexivity. Qed.

Lemma b64_positive_nonzero (x : float) :
  (0 <? x)%float = true -> (x =? 0)%float = false.
Proof.
  rewrite ltb_spec, eqb_spec, b64_zero_spec.
  destruct (Prim2SF x) as [s|s| |s m e]; try destruct s; simpl;
    intros H; (discriminate H || reflexivity).
Qed.

Lemma b64_nonnegative_value (x : float) :
  (0 <=? x)%float = true ->
  match B64.value_of x with
  | B64.Finite q => (0 <= q)%Q
  | B64.Infinite negative => negative = false
  | B64.NaN => False
  end.
Proof.
  unfold B64.value_of. rewrite leb_spec, b64_zero_spec.
  destruct (Prim2SF x) as [s|s| |s m e]; try destruct s; simpl;
    intros H; try discriminate H; try reflexivity.
  - lra.
  - lra.
  - apply Qmult_le_0_compat.
    + unfold Qle. simpl. lia.
    + apply Qpower_0_le. lra.
Qed.

Lemma b64_int_floor (x : float) :
  (0 <=? x)%float = true -> B64.int x = B64.floor x.
Proof.
  intros H. apply b64_nonnegative_value in H.
  unfold B64.int, B64.floor.
  destruct (B64.value_of x) as [q|s|]; try reflexivity.
  f_equal. apply Py_int_floor. exact H.
Qed.

Lemma bind_Ok_eta {A : Type} (m : result A) : (x <- m ;; Ok x) = m.
Proof. destruct m; reflexivity. Qed.

(** ** The ordering controller on binary64 *)

Lemma b64_order_discount_branch (average_price : float)
  (percept : B64.Percept.t) :
  B64.OrderingController.order average_price percept true false
  = if (average_price =? 0)%float then Raise ZeroDivisionError
    else B64.int (15 * (1 + (average_price - B64.Percept.price percept)
                             / average_price))%float.
Proof.
  unfold B64.OrderingController.order, B64.truediv. simpl.
  destruct (average_price =? 0)%float; simpl; [reflexivity|].
  apply bind_Ok_eta.
Qed.

(** C5 (as the code has it): with the discount flag set, the low-stock flag
    clear and a positive reference average, the ordering controller returns
    [int(q)] for the float [q = 15 * (1 + discount_ratio)], every operation
    rounded to binary64: the truncation of [q] toward zero, an
    [OverflowError] for an infinite [q] and a [ValueError] for a NaN.  That
    is [floor(q)] whenever [q >= 0], and 18 for price 450 against reference
    600. *)
Theorem b64_order_discount_quantity (average_price : float)
  (percept : B64.Percept.t) :
  (0 <? average_price)%float = true ->
  let discount_ratio :=
    ((average_price - B64.Percept.price percept) / average_price)%float in
  let quantity := (15 * (1 + discount_ratio))%float in
  B64.OrderingController.order average_price percept true false
  = B64.int quantity
  /\ ((0 <=? quantity)%float = true ->
      B64.OrderingController.order average_price percept true false
      = B64.floor quantity)
  /\ B64.OrderingController.order 600
       {| B64.Percept.price := 450;
          B64.Percept.stock := B64.Percept.stock percept |}
       true false = Ok 18%Z.
Proof.
  intros Havg ratio quantity.
  assert (E : B64.OrderingController.order average_price percept true false
              = B64.int quantity).
  { rewrite b64_order_discount_branch.
    rewrite (b64_positive_nonzero Havg). reflexivity. }
  split; [exact E|]. split; [|vm_compute; reflexivity].
  intros Hq. rewrite E. apply b64_int_floor. exact Hq.
Qed.

Lemma b64_order_discount_quantity_witness :
  (0 <? 600)%float = true
  /\ B64.OrderingController.order 600
       {| B64.Percept.price := 450; B64.Percept.stock := 50 |} true false
     = B64.int (15 * (1 + (600 - 450) / 600))%float.
Proof.
  split; [reflexivity|].
  apply (b64_order_discount_quantity (average_price := 600)
           {| B64.Percept.price := 450; B64.Percept.stock := 50 |}).
  reflexivity.
Defined.

(** C5, as stated, fails above twice the reference: for price 1300 against
    reference 600 the float [q] is -2.5000000000000009, which [int]
    truncates to -2 while its floor is -3. *)
Lemma b64_order_discount_not_floor :
  (0 <? 600)%float = true
  /\ B64.OrderingController.order 600
       {| B64.Percept.price := 1300; B64.Percept.stock := 50 |} true false
     = Ok (-2)%Z
  /\ B64.floor (15 * (1 + (600 - 1300) / 600))%float = Ok (-3)%Z
  /\ B64.OrderingController.order 600
       {| B64.Percept.price := 1300; B64.Percept.stock := 50 |} true false
     <> B64.floor (15 * (1 + (600 - 1300) / 600))%float.
Proof.
  split; [reflexivity|]. split; [vm_compute; reflexivity|].
  split; [vm_compute; reflexivity|]. vm_compute. discriminate.
Qed.

(** Rounding comes before truncation: for price 200 against reference 600
    the ratio rounds to 0.66666666666666663 and [q] to 24.999999999999996,
    so 24 units are ordered, where exact arithmetic gives 25. *)
Example b64_order_rounds_then_truncates :
  B64.OrderingController.order 600
    {| B64.Percept.price := 200; B64.Percept.stock := 50 |} true false
  = Ok 24%Z
  /\ OrderingController.order 600
       {| Percept.price := 200; Percept.stock := 50 |} true false
     = Ok 25%Z.
Proof. split; vm_compute; reflexivity. Qed.

(** What [order] can raise, on binary64: with the low-stock flag set it
    returns 10 and with both flags clear 0; with the discount flag set and
    the low-stock flag clear it raises [ZeroDivisionError] when the average
    is zero (of either sign) and otherwise returns [int(q)], so that it
    raises [OverflowError] when [q] is infinite and [ValueError] when [q] is
    a NaN; it raises nothing else.  For the average 2^-1000 and the price
    2^100 the ratio is infinite and [order] raises [OverflowError]. *)
Theorem b64_order_exceptions (average_price : float) (percept : B64.Percept.t)
  (price_discount low_stock : bool) :
  let quantity :=
    (15 * (1 + (average_price - B64.Percept.price percept)
                / average_price))%float in
  (low_stock = true ->
   B64.OrderingController.order average_price percept price_discount low_stock
   = Ok 10%Z)
  /\ (price_discount = false -> low_stock = false ->
      B64.OrderingController.order average_price percept price_discount
        low_stock = Ok 0%Z)
  /\ (price_discount = true -> low_stock = false ->
      B64.OrderingController.order average_price percept price_discount
        low_stock
      = if (average_price =? 0)%float then Raise ZeroDivisionError
        else B64.int quantity)
  /\ (forall e,
        B64.OrderingController.order average_price percept price_discount
          low_stock = Raise e ->
        price_discount = true /\ low_stock = false
        /\ ((e = ZeroDivisionError /\ (average_price =? 0)%float = true)
            \/ (e = OverflowError /\ (average_price =? 0)%float = false
                /\ exists negative,
                     B64.value_of quantity = B64.Infinite negative)
            \/ (e = ValueError /\ (average_price =? 0)%float = false
                /\ B64.value_of quantity = B64.NaN)))
  /\ B64.OrderingController.order 0x1p-1000
       {| B64.Percept.price := 0x1p+100;
          B64.Percept.stock := B64.Percept.stock percept |}
       true false = Raise OverflowError.
Proof.
  intros quantity.
  split; [intros ->; destruct price_discount; reflexivity|].
  split; [intros -> ->; reflexivity|].
  split; [intros -> ->; apply b64_order_discount_branch|].
  split; [|vm_compute; reflexivity].
  intros e H. destruct price_discount, low_stock; try discriminate H.
  rewrite b64_order_discount_branch in H. fold quantity in H.
  split; [reflexivity|]. split; [reflexivity|].
  destruct (average_price =? 0)%float.
  - left. injection H as <-. auto.
  - right. unfold B64.int in H.
    destruct (B64.value_of quantity) as [q|negative|]; try discriminate.
    + left. injection H as <-. split; [reflexivity|]. split; [reflexivity|].
      exists negative. reflexivity.
    + right. injection H as <-. auto.
Qed.

(** ** The agent on binary64 *)

Lemma b64_of_int_10 : B64.of_int 10 = Ok 10%float.
Proof. reflexivity. Qed.

Lemma b64_of_int_0 : B64.of_int 0 = Ok 0%float.
Proof. reflexivity. Qed.

(** C6: [select_action] first moves [average_price] by [(price - average) *
    0.1] and the price monitor then compares the price with [(1 -
    discount_threshold)] times the updated average: the discount flag of the
    decision, reported in its log, is that comparison, and the quantity
    ordered is the one the ordering controller gives for it; all of it in
    binary64.  [select_action] raises what [order] raises on these flags,
    and returns whenever the flags do not lead to the division.  With the
    default threshold 0.2, average 600 and price 475 the flag is false (475
    is not below 0.8 * 587.5 = 470) although 475 is below 0.8 * 600 = 480. *)
Theorem b64_select_action_updated_average (self : B64.SmartphoneAgent.t)
  (percept : B64.Percept.t) :
  let average_price' :=
    (B64.SmartphoneAgent.average_price self
     + (B64.Percept.price percept - B64.SmartphoneAgent.average_price self)
       * 0.1)%float in
  let discount_threshold :=
    B64.PriceMonitoringController.discount_threshold
      (B64.SmartphoneAgent.price_controller self) in
  let price_discount :=
    (B64.Percept.price percept
     <? (1 - discount_threshold) * average_price')%float in
  let low_stock :=
    B64.InventoryMonitoringController.monitor
      (B64.SmartphoneAgent.inventory_controller self) percept in
  (forall self' action log,
      B64.SmartphoneAgent.select_action self percept
      = Ok (self', action, log) ->
      B64.SmartphoneAgent.average_price self' = average_price'
      /\ B64.log_price_discount log = price_discount
      /\ B64.log_low_stock log = low_stock
      /\ B64.OrderingController.order
           (B64.SmartphoneAgent.average_price self') percept
           (B64.log_price_discount log) (B64.log_low_stock log)
         = Ok (B64.log_tobuy log)
      /\ buy action = Some (B64.log_tobuy log))
  /\ (price_discount = false \/ low_stock = true ->
      exists r, B64.SmartphoneAgent.select_action self percept = Ok r)
  /\ (forall e,
        B64.OrderingController.order average_price' percept price_discount
          low_stock = Raise e ->
        B64.SmartphoneAgent.select_action self percept = Raise e)
  /\ (exists self' action log,
        B64.SmartphoneAgent.select_action B64.SmartphoneAgent.init
          {| B64.Percept.price := 475; B64.Percept.stock := 50 |}
        = Ok (self', action, log)
        /\ B64.SmartphoneAgent.average_price self' = 587.5%float
        /\ B64.log_price_discount log = false
        /\ buy action = Some 0%Z
        /\ (475 <? (1 - 0.2) * B64.SmartphoneAgent.average_price
                                  B64.SmartphoneAgent.init)%float = true).
Proof.
  intros average_price' discount_threshold price_discount low_stock.
  assert (Hmon : B64.PriceMonitoringController.monitor
                   (B64.SmartphoneAgent.price_controller self)
                   average_price' percept = price_discount).
  { unfold B64.PriceMonitoringController.monitor, price_discount,
      discount_threshold.
    destruct (_ <? _)%float; reflexivity. }
  split; [|split; [|split]].
  - intros self' action log. unfold B64.SmartphoneAgent.select_action.
    fold average_price'. rewrite Hmon. fold low_stock.
    destruct (B64.OrderingController.order average_price' percept
                price_discount low_stock) as [tobuy|e] eqn:Horder; simpl;
      [|discriminate].
    destruct (B64.of_int tobuy) as [units|e]; simpl; [|discriminate].
    intros H. injection H as <- <- <-. simpl.
    split; [reflexivity|]. split; [reflexivity|]. split; [reflexivity|].
    split; [exact Horder|reflexivity].
  - intros Hflags.
    assert (Horder :
              B64.OrderingController.order average_price' percept
                price_discount low_stock = Ok 10%Z
              \/ B64.OrderingController.order average_price' percept
                   price_discount low_stock = Ok 0%Z).
    { unfold B64.OrderingController.order.
      destruct Hflags as [E | E]; rewrite E.
      - destruct low_stock; [left|right]; reflexivity.
      - rewrite andb_false_r. left. reflexivity. }
    unfold B64.SmartphoneAgent.select_action.
    fold average_price'. rewrite Hmon. fold low_stock.
    destruct Horder as [E | E]; rewrite E; cbn [bind];
      [rewrite b64_of_int_10 | rewrite b64_of_int_0]; cbn [bind];
      eexists; reflexivity.
  - intros e Horder. unfold B64.SmartphoneAgent.select_action.
    fold average_price'. rewrite Hmon. fold low_stock.
    rewrite Horder. reflexivity.
  - eexists _, _, _. split; [vm_compute; reflexivity|].
    split; [vm_compute; reflexivity|]. split; [reflexivity|].
    split; [reflexivity|]. vm_compute. reflexivity.
Qed.

(** At the average 600 (updated to 586.95652173913038) the threshold is
    469.56521739130432: a percept of exactly that price is not below it, and
    nothing is ordered. *)
Example b64_select_action_at_threshold :
  exists self' action log,
    B64.SmartphoneAgent.select_action B64.SmartphoneAgent.init
      {| B64.Percept.price := 0x1.d590b21642c85p+8; B64.Percept.stock := 50 |}
    = Ok (self', action, log)
    /\ ((1 - 0.2) * B64.SmartphoneAgent.average_price self')%float
       = 0x1.d590b21642c85p+8%float
    /\ B64.log_price_discount log = false
    /\ buy action = Some 0%Z.
Proof.
  eexists _, _, _. split; [vm_compute; reflexivity|].
  split; [vm_compute; reflexivity|]. split; reflexivity.
Qed.

(** ** The sampler on binary64 *)

(** C7: on binary64 the subtracting loop can exhaust a distribution whose
    probabilities sum to 1 or more.  For the drawn value [1 - 2^-53], the
    largest that [random.random()] returns, and the distribution of four
    outcomes of probability [2^-55] and one of probability [1 - 2^-53], the
    probabilities are non-negative and sum to exactly 1, the cumulative
    probability of the last outcome exceeds the drawn value and no earlier
    one does, so that the last outcome is the one to return; but each
    [ranreal -= 2^-55] rounds back to [ranreal], the last comparison is
    between equal numbers, and [select_from_dist] raises [RuntimeError].  It
    does so too for ten outcomes of probability 0.1. *)
Theorem b64_select_from_dist_rounding :
  let u := (1 - 0x1p-53)%float in
  let item_prob_dist :=
    [(0%Z, 0x1p-55%float); (1%Z, 0x1p-55%float); (2%Z, 0x1p-55%float);
     (3%Z, 0x1p-55%float); (4%Z, u)] in
  let exact :=
    map (fun ip : Z * float => (fst ip, B64.to_Q (snd ip))) item_prob_dist in
  let tenths := map (fun i => (Z.of_nat i, 0.1%float)) (seq 0 10) in
  B64.select_from_dist item_prob_dist u = Raise RuntimeError
  /\ Forall (fun ip : Z * float =>
               exists q, B64.value_of (snd ip) = B64.Finite q /\ (0 <= q)%Q)
       item_prob_dist
  /\ B64.value_of u = B64.Finite (B64.to_Q u)
  /\ (0 <= B64.to_Q u < 1)%Q
  /\ (total_probability exact == 1)%Q
  /\ (B64.to_Q u < cumulative exact 4)%Q
  /\ (forall j, (j < 4)%nat -> ~ (B64.to_Q u < cumulative exact j)%Q)
  /\ select_from_dist exact (B64.to_Q u) = Ok 4%Z
  /\ B64.select_from_dist tenths u = Raise RuntimeError
  /\ (1 <= total_probability
             (map (fun ip : Z * float => (fst ip, B64.to_Q (snd ip)))
                tenths))%Q.
Proof.
  intros u item_prob_dist exact tenths.
  split; [vm_compute; reflexivity|].
  split.
  { repeat constructor; eexists; (split; [vm_compute; reflexivity|]);
      vm_compute; discriminate. }
  split; [vm_compute; reflexivity|].
  split; [split; vm_compute; (discriminate || reflexivity)|].
  split; [vm_compute; reflexivity|].
  split; [vm_compute; reflexivity|].
  split.
  { intros j Hj.
    assert (Hc : (j = 0 \/ j = 1 \/ j = 2 \/ j = 3)%nat) by lia.
    destruct Hc as [-> | [-> | [-> | ->]]]; vm_compute; discriminate. }
  split; [vm_compute; reflexivity|].
  split; [vm_compute; reflexivity|].
  vm_compute. discriminate.
Qed.
